(** * BitbucketClient (src/client.ts): request construction and error flow

    A shallow embedding of the [BitbucketClient] class.  Every method of the
    class builds the arguments of one axios call (verb, url, body, request
    config), awaits it and returns [response.data]; two methods await two
    calls.  The axios instance and the remote server are outside the
    repository: they are represented by an arbitrary transition function
    [respond] on an arbitrary server state, and every request handed to axios
    is recorded together with its outcome. *)

From Stdlib Require Import String Ascii ZArith Bool List.
From stdpp Require Import base option list gmap strings pretty.

Set Warnings "-register-all".

Local Open Scope string_scope.
Local Open Scope Z_scope.

(** ** JavaScript strings

    Strings are sequences of code units; the three [String.prototype]
    methods used by the client are written by recursion on the receiver. *)

(** [stripPrefix p s] is the rest of [s] after a leading [p], if any. *)
Fixpoint stripPrefix (p s : string) : option string :=
  match p with
  | EmptyString => Some s
  | String a p' =>
      match s with
      | EmptyString => None
      | String b s' => if Ascii.eqb a b then stripPrefix p' s' else None
      end
  end.

(** [s.startsWith(p)] *)
Definition startsWith (s p : string) : bool :=
  match stripPrefix p s with Some _ => true | None => false end.

(** [s.includes(x)] *)
Fixpoint includes (s x : string) : bool :=
  startsWith s x ||
  match s with
  | EmptyString => false
  | String _ s' => includes s' x
  end.

(** [s.replace(pat, rep)] for a string pattern: the first occurrence only.
    The replacement used by the client holds no [$], so no replacement
    pattern is expanded. *)
Fixpoint replace (s pat rep : string) : string :=
  match stripPrefix pat s with
  | Some rest => rep +:+ rest
  | None =>
      match s with
      | EmptyString => EmptyString
      | String c s' => String c (replace s' pat rep)
      end
  end.

(** Truthiness of an optional string and of an optional number. *)
Definition truthyStr (o : option string) : bool :=
  match o with
  | Some s => negb (String.eqb s "")
  | None => false
  end.

Definition truthyNum (o : option Z) : bool :=
  match o with
  | Some n => negb (Z.eqb n 0)
  | None => false
  end.

(** [a || b] on optional strings: [a] when it is truthy. *)
Definition orElse (a : option string) (b : string) : string :=
  match a with
  | Some s => if String.eqb s "" then b else s
  | None => b
  end.

(** ** JavaScript values *)

Inductive JsVal : Type :=
  | JUndefined
  | JNull
  | JBool (b : bool)
  | JNum (n : Z)
  | JStr (s : string)
  | JArr (items : list JsVal)
  | JObj (fields : list (string * JsVal)).

(** Own-property read [o.k]; [undefined] comes back as [None]. *)
Fixpoint assoc (k : string) (fields : list (string * JsVal)) : option JsVal :=
  match fields with
  | [] => None
  | (k', v) :: rest => if String.eqb k k' then Some v else assoc k rest
  end.

Definition getProp (k : string) (v : JsVal) : option JsVal :=
  match v with
  | JObj fields => assoc k fields
  | _ => None
  end.

(** Truthiness of a value. *)
Definition truthy (v : JsVal) : bool :=
  match v with
  | JUndefined | JNull => false
  | JBool b => b
  | JNum n => negb (Z.eqb n 0)
  | JStr s => negb (String.eqb s "")
  | JArr _ | JObj _ => true
  end.

(** [a || b], where [a] may be [undefined]. *)
Definition orValue (a : option JsVal) (b : JsVal) : JsVal :=
  match a with
  | Some v => if truthy v then v else b
  | None => b
  end.

(** The read [v[0]]: the first element of an array, the first code unit of
    a string, the property [0] of an object; [undefined] otherwise. *)
Definition index0 (v : JsVal) : option JsVal :=
  match v with
  | JArr items => head items
  | JStr (String c _) => Some (JStr (String c EmptyString))
  | JObj fields => assoc "0" fields
  | _ => None
  end.

(** The call [v.includes(x)] with a string argument: [String.prototype.includes]
    on a string, [Array.prototype.includes] on an array (an element is found
    when it is the string [x]); no other value has an [includes] method, and
    the call throws a [TypeError] ([None]). *)
Definition jsIncludes (v : JsVal) (x : string) : option bool :=
  match v with
  | JStr s => Some (includes s x)
  | JArr items =>
      Some (existsb (fun item => match item with
                                 | JStr s => String.eqb s x
                                 | _ => false
                                 end) items)
  | _ => None
  end.

(** An object spread [...(c && { k: v })]: nothing when [c] is falsy. *)
Definition spreadIf (c : bool) (fields : list (string * JsVal)) : list (string * JsVal) :=
  if c then fields else [].

(** ** Template literals

    A url is kept as the evaluated template literal: its literal chunks and
    the values substituted for [${...}].  [render] is the string that axios
    receives; [shape] forgets the substituted values and identifies the REST
    endpoint that the url addresses. *)

Inductive Seg : Type :=
  | Lit (s : string)
  | Sub (s : string).

Definition Template : Type := list Seg.

Definition segText (g : Seg) : string :=
  match g with Lit s => s | Sub s => s end.

Definition render (t : Template) : string :=
  foldr (fun g acc => segText g +:+ acc) "" t.

Definition Endpoint : Type := list (option string).

Definition shape (t : Template) : Endpoint :=
  map (fun g => match g with Lit s => Some s | Sub _ => None end) t.

(** An integer identifier held in a [number].  Identifiers are safe integers
    ([Number.isSafeInteger]): up to [Number.MAX_SAFE_INTEGER] in magnitude
    every integer is a [number] of its own, and a template literal spells it
    in decimal, with a leading [-] when it is negative. *)
Definition MAX_SAFE_INTEGER : Z := 9007199254740991.

Record SafeInteger : Type := mkSafeInteger {
  integerValue : Z;
  isSafeInteger : (Z.abs integerValue <=? MAX_SAFE_INTEGER) = true;
}.

Coercion integerValue : SafeInteger >-> Z.

#[global] Instance pretty_SafeInteger : Pretty SafeInteger :=
  fun n => pretty (integerValue n).

(** [${n}] for an integer identifier, and [${x}] for a possibly undefined
    string. *)
Definition num (n : SafeInteger) : Seg := Sub (pretty n).

Definition str (s : string) : Seg := Sub s.

Definition strOrUndefined (o : option string) : Seg :=
  Sub (default "undefined" o).

(** ** The axios boundary *)

Inductive Verb : Type := GET | POST | PUT | DELETE.

(** The per-request config object handed to axios.  A field left out of the
    object literal is [None]; axios then falls back to the instance
    defaults. *)
Record RequestConfig : Type := mkConfig {
  cfg_params : option (gmap string JsVal);
  cfg_headers : option (gmap string string);
  cfg_baseURL : option string;
}.

Definition noConfig : RequestConfig := mkConfig None None None.

Record Request : Type := mkRequest {
  req_verb : Verb;
  req_url : Template;
  req_data : option JsVal;
  req_config : RequestConfig;
}.

Record Response : Type := mkResponse {
  resp_status : Z;
  resp_headers : gmap string string;
  resp_data : JsVal;
}.

(** The rejection value of an axios call.  [error.response], when there is
    one, holds the status and the body as it came from the server: any value,
    whatever type [checkRepositoryPermissions] casts it to. *)
Record ErrorResponse : Type := mkErrorResponse {
  eresp_status : Z;
  eresp_data : JsVal;
}.

Record AxiosError : Type := mkError {
  err_code : string;
  err_response : option ErrorResponse;
}.

(** What a rejected promise carries: the error of an axios call, or a
    [TypeError] raised by the evaluation of an expression. *)
Inductive JsError : Type :=
  | Axios (e : AxiosError)
  | TypeError (message : string).

Coercion Axios : AxiosError >-> JsError.

(** A settled promise. *)
Inductive Settled (A : Type) : Type :=
  | Resolved (a : A)
  | Rejected (e : JsError).

Arguments Resolved {A} a.
Arguments Rejected {A} e.

(** An axios config object as the constructor sees it: the caller's
    [axiosConfig] and the object handed to [axios.create] (which becomes the
    instance defaults).  [others] holds every option the constructor does not
    name. *)
Record AxiosConfig : Type := mkAxiosConfig {
  baseURL : option string;
  headers : option (gmap string string);
  others : gmap string JsVal;
}.

Record BitbucketClientConfig : Type := mkClientConfig {
  token : string;
  baseUrl : string;
  axiosConfig : option AxiosConfig;
}.

Record BitbucketClient : Type := mkClient { defaults : AxiosConfig }.

(** [new BitbucketClient(config)]: [axiosConfig] defaults to [{}] and is
    spread first, then [baseURL] and [headers] are written over it; inside
    [headers] the caller's headers are spread first, then [Authorization] and
    [Content-Type]. *)
Definition newClient (config : BitbucketClientConfig) : BitbucketClient :=
  let user := default (mkAxiosConfig None None ∅) (axiosConfig config) in
  mkClient {|
    baseURL := Some (baseUrl config +:+ "/rest/api/latest");
    headers :=
      Some (<["Content-Type" := "application/json"]>
             (<["Authorization" := "Bearer " +:+ token config]>
               (default ∅ (headers user))));
    others := others user;
  |}.

(** The base url axios resolves a request against: the request's own
    [baseURL] when the config gives one, the instance default otherwise. *)
Definition effectiveBase (this : BitbucketClient) (r : Request) : option string :=
  match cfg_baseURL (req_config r) with
  | Some b => Some b
  | None => baseURL (defaults this)
  end.

(** [this.client.defaults.baseURL?.replace('/rest/api/latest', '/rest')] *)
Definition pluginBase (this : BitbucketClient) : option string :=
  (fun b => replace b "/rest/api/latest" "/rest") <$> baseURL (defaults this).

(** ** Async functions

    An async function is a tree of awaited axios calls: it returns, throws,
    or hands a request to axios and continues with the settled promise. *)

Inductive Async (A : Type) : Type :=
  | Return (a : A)
  | Throw (e : JsError)
  | Call (r : Request) (k : Settled Response -> Async A).

Arguments Return {A} a.
Arguments Throw {A} e.
Arguments Call {A} r k.

Fixpoint bind {A B : Type} (m : Async A) (f : A -> Async B) : Async B :=
  match m with
  | Return a => f a
  | Throw e => Throw e
  | Call r k => Call r (fun o => bind (k o) f)
  end.

Notation "x <- m ;; k" := (bind m (fun x => k))
  (at level 100, m at next level, right associativity).

(** [await axios(...)] outside of any [try]: a rejection is rethrown. *)
Definition await (r : Request) : Async Response :=
  Call r (fun o =>
    match o with
    | Resolved resp => Return resp
    | Rejected e => Throw e
    end).

(** [try { m } catch (e) { ... }]: the body's outcome, handed to the code
    after it. *)
Fixpoint attempt {A : Type} (m : Async A) : Async (Settled A) :=
  match m with
  | Return a => Return (Resolved a)
  | Throw e => Return (Rejected e)
  | Call r k => Call r (fun o => attempt (k o))
  end.

(** [this.client.get / post / put / delete]. *)
Definition get (url : Template) (config : RequestConfig) : Async Response :=
  await (mkRequest GET url None config).

Definition post (url : Template) (data : JsVal) (config : RequestConfig) : Async Response :=
  await (mkRequest POST url (Some data) config).

Definition put (url : Template) (data : JsVal) (config : RequestConfig) : Async Response :=
  await (mkRequest PUT url (Some data) config).

Definition delete (url : Template) (config : RequestConfig) : Async Response :=
  await (mkRequest DELETE url None config).

(** *** Running an async function against a server *)

Definition Exchange : Type := Request * Settled Response.

Record Run (Server A : Type) : Type := mkRun {
  outcome : Settled A;
  final : Server;
  trace : list Exchange;
}.

Arguments mkRun {Server A} outcome final trace.
Arguments outcome {Server A} r.
Arguments final {Server A} r.
Arguments trace {Server A} r.

Section Transport.

Context {Server : Type}.
Variable respond : Server -> Request -> Settled Response * Server.

Fixpoint run {A : Type} (m : Async A) (s : Server) : Run Server A :=
  match m with
  | Return a => mkRun (Resolved a) s []
  | Throw e => mkRun (Rejected e) s []
  | Call r k =>
      let (o, s') := respond s r in
      let rest := run (k o) s' in
      mkRun (outcome rest) (final rest) ((r, o) :: trace rest)
  end.

End Transport.

(** ** Parameter records *)

(** Modelled from the spec: the parameter interfaces of [src/types.ts] are
    missing from the sources.  Each record below has the fields that its
    method destructures, optional ([?:]) fields as [option]; a params object
    that a method passes on or spreads whole is a finite map of its own
    properties. *)

Module GetUserProfileParams.
Record t : Type := mk { username : string }.
End GetUserProfileParams.

Module GetAllUsersParams.
Record t : Type := mk { filter : option string }.
End GetAllUsersParams.

Module ListRepositoriesParams.
Record t : Type := mk { projectKey : string }.
End ListRepositoriesParams.

Module GetRepositoryParams.
Record t : Type := mk { projectKey : string; repositorySlug : string }.
End GetRepositoryParams.

Module GetPullRequestParams.
Record t : Type := mk {
  projectKey : string;
  repositorySlug : string;
  pullRequestId : SafeInteger;
}.
End GetPullRequestParams.

Module CreatePullRequestParams.
Record t : Type := mk {
  projectKey : string;
  repositorySlug : string;
  title : string;
  description : option string;
  fromBranch : string;
  toBranch : string;
  fromRepositorySlug : option string;
  fromProjectKey : option string;
  reviewers : option (list string);
  draft : option bool;
}.
End CreatePullRequestParams.

Module GetPullRequestChangesParams.
Record t : Type := mk {
  projectKey : string;
  repositorySlug : string;
  pullRequestId : SafeInteger;
  limit : option Z;
}.
End GetPullRequestChangesParams.

Module GetPullRequestFileDiffParams.
Record t : Type := mk {
  projectKey : string;
  repositorySlug : string;
  pullRequestId : SafeInteger;
  path : string;
  contextLines : option Z;
}.
End GetPullRequestFileDiffParams.

Module GetPullRequestDiffParams.
Record t : Type := mk {
  projectKey : string;
  repositorySlug : string;
  pullRequestId : SafeInteger;
  path : option string;
  sinceId : option string;
  untilId : option string;
  contextLines : option Z;
  whitespace : option string;
  format : option string;
}.
End GetPullRequestDiffParams.

(** [queryParams] is the rest of the object after the three path fields. *)
Module GetPullRequestActivitiesParams.
Record t : Type := mk {
  projectKey : string;
  repositorySlug : string;
  pullRequestId : SafeInteger;
  queryParams : gmap string JsVal;
}.
End GetPullRequestActivitiesParams.

Module AddPullRequestCommentParams.
Record t : Type := mk {
  projectKey : string;
  repositorySlug : string;
  pullRequestId : SafeInteger;
  text : string;
  parentId : option Z;
  path : option string;
  line : option Z;
  lineType : option string;
  fileType : option string;
}.
End AddPullRequestCommentParams.

Module DeletePullRequestCommentParams.
Record t : Type := mk {
  projectKey : string;
  repositorySlug : string;
  pullRequestId : SafeInteger;
  commentId : SafeInteger;
  version : Z;
}.
End DeletePullRequestCommentParams.

Module UpdateReviewStatusParams.
Record t : Type := mk {
  projectKey : string;
  repositorySlug : string;
  pullRequestId : SafeInteger;
  status : string;
}.
End UpdateReviewStatusParams.

(** Shared by [AddPullRequestCommentReactionParams] and
    [RemovePullRequestCommentReactionParams], which are destructured alike. *)
Module PullRequestCommentReactionParams.
Record t : Type := mk {
  projectKey : string;
  repositorySlug : string;
  pullRequestId : SafeInteger;
  commentId : SafeInteger;
  emoticon : string;
}.
End PullRequestCommentReactionParams.

Module GetRequiredReviewersParams.
Record t : Type := mk {
  projectKey : string;
  repositorySlug : string;
  repositoryId : Z;
  sourceBranch : string;
  targetBranch : string;
}.
End GetRequiredReviewersParams.

Module BrowseParams.
Record t : Type := mk {
  projectKey : string;
  repositorySlug : string;
  path : option string;
  at_ : option string;
  limit : option Z;
  start : option Z;
}.
End BrowseParams.

Module GetRawContentParams.
Record t : Type := mk {
  projectKey : string;
  repositorySlug : string;
  path : string;
  at_ : option string;
}.
End GetRawContentParams.

Module CheckRepositoryPermissionsParams.
Record t : Type := mk { projectKey : string; repositorySlug : string }.
End CheckRepositoryPermissionsParams.

Record RepositoryPermissions : Type := mkPermissions {
  read : bool;
  write : bool;
}.

(** ** Helpers of the methods *)

(** [toRefId], declared alike in [createPullRequest] and
    [getRequiredReviewers]. *)
Definition toRefId (branch : string) : string :=
  if startsWith branch "refs/" then branch else "refs/heads/" +:+ branch.

(** The url prefixes that several template literals share. *)
Definition repoUrl (projectKey repositorySlug : string) : Template :=
  [Lit "/projects/"; str projectKey; Lit "/repos/"; str repositorySlug].

Definition pullRequestUrl (projectKey repositorySlug : string)
    (pullRequestId : SafeInteger) : Template :=
  (repoUrl projectKey repositorySlug ++ [Lit "/pull-requests/"; num pullRequestId])%list.

Definition reactionUrl (projectKey repositorySlug : string)
    (pullRequestId commentId : SafeInteger)
    (emoticon : string) : Template :=
  [Lit "/comment-likes/latest/projects/"; str projectKey; Lit "/repos/"; str repositorySlug;
   Lit "/pull-requests/"; num pullRequestId; Lit "/comments/"; num commentId;
   Lit "/reactions/"; str emoticon].

Definition reviewersUrl (projectKey repositorySlug : string) : Template :=
  [Lit "/default-reviewers/latest/projects/"; str projectKey; Lit "/repos/";
   str repositorySlug; Lit "/reviewers"].

(** [if (c) queryParams[k] = v] *)
Definition setIf (c : bool) (k : string) (v : JsVal) (q : gmap string JsVal) : gmap string JsVal :=
  if c then <[k := v]> q else q.

(** [k: v] for an optional string or number that is known to be defined. *)
Definition jstr (o : option string) : JsVal :=
  match o with Some s => JStr s | None => JUndefined end.

Definition jnum (o : option Z) : JsVal :=
  match o with Some n => JNum n | None => JUndefined end.

Definition jbool (o : option bool) : JsVal :=
  match o with Some b => JBool b | None => JUndefined end.

Definition isDefined {A : Type} (o : option A) : bool :=
  match o with Some _ => true | None => false end.

(** ** The methods of [BitbucketClient] *)

Definition getUserProfile (params : GetUserProfileParams.t) : Async JsVal :=
  response <- get [Lit "/users/"; str (GetUserProfileParams.username params)] noConfig ;;
  Return (resp_data response).

Definition getAllUsers (params : option GetAllUsersParams.t) : Async JsVal :=
  let filter := params ≫= GetAllUsersParams.filter in
  response <- get [Lit "/users"]
    (mkConfig (Some (if truthyStr filter then {["filter" := jstr filter]} else ∅)) None None) ;;
  Return (resp_data response).

Definition listProjects (params : option (gmap string JsVal)) : Async JsVal :=
  response <- get [Lit "/projects"] (mkConfig params None None) ;;
  Return (resp_data response).

Definition listRepositories (params : ListRepositoriesParams.t) : Async JsVal :=
  response <- get [Lit "/projects/"; str (ListRepositoriesParams.projectKey params); Lit "/repos"]
    noConfig ;;
  Return (resp_data response).

Definition getRepository (params : GetRepositoryParams.t) : Async JsVal :=
  let 'GetRepositoryParams.mk projectKey repositorySlug := params in
  response <- get (repoUrl projectKey repositorySlug) noConfig ;;
  Return (resp_data response).

Definition getInboxPullRequests (params : option (gmap string JsVal)) : Async JsVal :=
  response <- get [Lit "/inbox/pull-requests"] (mkConfig params None None) ;;
  Return (resp_data response).

(** The three defaults of [getDashboardPullRequests]. *)
Definition dashboardDefaults : gmap string JsVal :=
  {["role" := JStr "AUTHOR"; "state" := JStr "OPEN"; "order" := JStr "NEWEST"]}.

(** [{ role: 'AUTHOR', state: 'OPEN', order: 'NEWEST', ...params }]: the
    caller's own properties are written over the defaults. *)
Definition dashboardQuery (params : option (gmap string JsVal)) : gmap string JsVal :=
  default ∅ params ∪ dashboardDefaults.

Definition getDashboardPullRequests (params : option (gmap string JsVal)) : Async JsVal :=
  response <- get [Lit "/dashboard/pull-requests"]
    (mkConfig (Some (dashboardQuery params)) None None) ;;
  Return (resp_data response).

Definition getPullRequest (params : GetPullRequestParams.t) : Async JsVal :=
  let 'GetPullRequestParams.mk projectKey repositorySlug pullRequestId := params in
  response <- get (pullRequestUrl projectKey repositorySlug pullRequestId) noConfig ;;
  Return (resp_data response).

Definition createPullRequestBody (params : CreatePullRequestParams.t) : JsVal :=
  let 'CreatePullRequestParams.mk projectKey repositorySlug title description fromBranch
        toBranch fromRepositorySlug fromProjectKey reviewers draft := params in
  JObj
    ([("title", JStr title)]
     ++ spreadIf (truthyStr description) [("description", jstr description)]
     ++ [("fromRef",
          JObj ([("id", JStr (toRefId fromBranch))]
                ++ spreadIf (truthyStr fromRepositorySlug)
                     [("repository",
                       JObj [("slug", jstr fromRepositorySlug);
                             ("project", JObj [("key", JStr (orElse fromProjectKey projectKey))])])]));
         ("toRef", JObj [("id", JStr (toRefId toBranch))])]
     ++ spreadIf (match reviewers with Some l => (0 <? Z.of_nat (length l)) | None => false end)
          [("reviewers",
            JArr (map (fun username => JObj [("user", JObj [("name", JStr username)])])
                      (default [] reviewers)))]
     ++ spreadIf (isDefined draft) [("draft", jbool draft)])%list.

Definition createPullRequest (params : CreatePullRequestParams.t) : Async JsVal :=
  response <- post
    (repoUrl (CreatePullRequestParams.projectKey params)
             (CreatePullRequestParams.repositorySlug params) ++ [Lit "/pull-requests"])%list
    (createPullRequestBody params) noConfig ;;
  Return (resp_data response).

Definition getPullRequestChanges (params : GetPullRequestChangesParams.t) : Async JsVal :=
  let 'GetPullRequestChangesParams.mk projectKey repositorySlug pullRequestId limit := params in
  response <- get
    (pullRequestUrl projectKey repositorySlug pullRequestId ++ [Lit "/changes"])%list
    (mkConfig (Some (if truthyNum limit then {["limit" := jnum limit]} else ∅)) None None) ;;
  Return (resp_data response).

Definition getPullRequestFileDiff (params : GetPullRequestFileDiffParams.t) : Async JsVal :=
  let 'GetPullRequestFileDiffParams.mk projectKey repositorySlug pullRequestId path
        contextLines := params in
  response <- get
    (pullRequestUrl projectKey repositorySlug pullRequestId ++ [Lit "/diff/"; str path])%list
    (mkConfig
       (Some (if truthyNum contextLines then {["contextLines" := jnum contextLines]} else ∅))
       None None) ;;
  Return (resp_data response).

Definition getPullRequestDiff (params : GetPullRequestDiffParams.t) : Async JsVal :=
  let 'GetPullRequestDiffParams.mk projectKey repositorySlug pullRequestId path sinceId untilId
        contextLines whitespace format0 := params in
  let format := default "text" format0 in
  let queryParams : gmap string JsVal :=
    setIf (truthyStr whitespace) "whitespace" (jstr whitespace)
      (setIf (isDefined contextLines) "contextLines" (jnum contextLines)
        (setIf (truthyStr untilId) "untilId" (jstr untilId)
          (setIf (truthyStr sinceId) "sinceId" (jstr sinceId) ∅))) in
  response <- get
    (pullRequestUrl projectKey repositorySlug pullRequestId
       ++ [Lit "/diff/"; str (orElse path "")])%list
    (mkConfig (Some queryParams)
       (Some {["Accept" := if String.eqb format "text" then "text/plain" else "application/json"]})
       None) ;;
  Return (resp_data response).

Definition getPullRequestActivities (params : GetPullRequestActivitiesParams.t) : Async JsVal :=
  let 'GetPullRequestActivitiesParams.mk projectKey repositorySlug pullRequestId
        queryParams := params in
  response <- get
    (pullRequestUrl projectKey repositorySlug pullRequestId ++ [Lit "/activities"])%list
    (mkConfig (Some queryParams) None None) ;;
  Return (resp_data response).

Definition addCommentBody (params : AddPullRequestCommentParams.t) : JsVal :=
  let 'AddPullRequestCommentParams.mk _ _ _ text parentId path line lineType fileType :=
    params in
  JObj
    ([("text", JStr text)]
     ++ spreadIf (truthyNum parentId) [("parent", JObj [("id", jnum parentId)])]
     ++ spreadIf (truthyStr path)
          [("anchor",
            JObj ([("path", jstr path); ("diffType", JStr "EFFECTIVE")]
                  ++ spreadIf (isDefined line) [("line", jnum line)]
                  ++ spreadIf (truthyStr lineType) [("lineType", jstr lineType)]
                  ++ spreadIf (truthyStr fileType) [("fileType", jstr fileType)]))])%list.

Definition addPullRequestComment (params : AddPullRequestCommentParams.t) : Async JsVal :=
  response <- post
    (pullRequestUrl (AddPullRequestCommentParams.projectKey params)
                    (AddPullRequestCommentParams.repositorySlug params)
                    (AddPullRequestCommentParams.pullRequestId params)
       ++ [Lit "/comments"])%list
    (addCommentBody params) noConfig ;;
  Return (resp_data response).

Definition deletePullRequestComment (params : DeletePullRequestCommentParams.t) : Async unit :=
  let 'DeletePullRequestCommentParams.mk projectKey repositorySlug pullRequestId commentId
        version := params in
  _ <- delete
    (pullRequestUrl projectKey repositorySlug pullRequestId
       ++ [Lit "/comments/"; num commentId])%list
    (mkConfig (Some {["version" := JNum version]}) None None) ;;
  Return tt.

Definition updateReviewStatus (params : UpdateReviewStatusParams.t) : Async JsVal :=
  let 'UpdateReviewStatusParams.mk projectKey repositorySlug pullRequestId status := params in
  propertiesResponse <- get [Lit "/application-properties"] noConfig ;;
  let userSlug := resp_headers propertiesResponse !! "x-ausername" in
  response <- put
    (pullRequestUrl projectKey repositorySlug pullRequestId
       ++ [Lit "/participants/"; strOrUndefined userSlug])%list
    (JObj [("status", JStr status)]) noConfig ;;
  Return (resp_data response).

Definition addPullRequestCommentReaction (this : BitbucketClient)
    (params : PullRequestCommentReactionParams.t) : Async JsVal :=
  let 'PullRequestCommentReactionParams.mk projectKey repositorySlug pullRequestId commentId
        emoticon := params in
  response <- put (reactionUrl projectKey repositorySlug pullRequestId commentId emoticon)
    (JObj []) (mkConfig None None (pluginBase this)) ;;
  Return (resp_data response).

Definition removePullRequestCommentReaction (this : BitbucketClient)
    (params : PullRequestCommentReactionParams.t) : Async unit :=
  let 'PullRequestCommentReactionParams.mk projectKey repositorySlug pullRequestId commentId
        emoticon := params in
  _ <- delete (reactionUrl projectKey repositorySlug pullRequestId commentId emoticon)
    (mkConfig None None (pluginBase this)) ;;
  Return tt.

Definition getRequiredReviewers (this : BitbucketClient)
    (params : GetRequiredReviewersParams.t) : Async JsVal :=
  let 'GetRequiredReviewersParams.mk projectKey repositorySlug repositoryId sourceBranch
        targetBranch := params in
  response <- get (reviewersUrl projectKey repositorySlug)
    (mkConfig
       (Some {["sourceRepoId" := JNum repositoryId;
               "targetRepoId" := JNum repositoryId;
               "sourceRefId" := JStr (toRefId sourceBranch);
               "targetRefId" := JStr (toRefId targetBranch)]})
       None (pluginBase this)) ;;
  Return (resp_data response).

Definition browse (params : BrowseParams.t) : Async JsVal :=
  let 'BrowseParams.mk projectKey repositorySlug path at_ limit start := params in
  let queryParams : gmap string JsVal :=
    setIf (isDefined start) "start" (jnum start)
      (setIf (isDefined limit) "limit" (jnum limit)
        (setIf (truthyStr at_) "at" (jstr at_) ∅)) in
  response <- get
    (repoUrl projectKey repositorySlug ++ [Lit "/browse/"; str (orElse path "")])%list
    (mkConfig (Some queryParams) None None) ;;
  Return (resp_data response).

Definition getRawContent (params : GetRawContentParams.t) : Async JsVal :=
  let 'GetRawContentParams.mk projectKey repositorySlug path at_ := params in
  let queryParams : gmap string JsVal := setIf (truthyStr at_) "at" (jstr at_) ∅ in
  response <- get
    (repoUrl projectKey repositorySlug ++ [Lit "/raw/"; str path])%list
    (mkConfig (Some queryParams) (Some {["Accept" := "text/plain"]}) None) ;;
  Return (resp_data response).

(** [error?.response?.data?.errors?.[0]?.message], on the values as they
    are at run time; [undefined] is [None]. *)
Definition firstErrorMessage (error : JsError) : option JsVal :=
  match error with
  | Axios e =>
      response ← err_response e;
      errors ← getProp "errors" (eresp_data response);
      entry ← index0 errors;
      getProp "message" entry
  | TypeError _ => None
  end.

(** The [TypeError] of a call to a missing [includes] method. *)
Definition notAFunction : JsError := TypeError "message.includes is not a function".

(** The [catch] block of the write probe. *)
Definition inferWrite (error : JsError) : Async RepositoryPermissions :=
  let message := orValue (firstErrorMessage error) (JStr "") in
  match jsIncludes message "name" with
  | None => Throw notAFunction
  | Some false => Return (mkPermissions true false)
  | Some true =>
      match jsIncludes message "required" with
      | None => Throw notAFunction
      | Some write => Return (mkPermissions true write)
      end
  end.

Definition checkRepositoryPermissions (params : CheckRepositoryPermissionsParams.t)
    : Async RepositoryPermissions :=
  let 'CheckRepositoryPermissionsParams.mk projectKey repositorySlug := params in
  let repoPath := repoUrl projectKey repositorySlug in
  readOutcome <- attempt (get repoPath noConfig) ;;
  match readOutcome with
  | Rejected _ => Return (mkPermissions false false)
  | Resolved _ =>
      writeOutcome <-
        attempt (post [Sub (render repoPath); Lit "/branches"] (JObj []) noConfig) ;;
      match writeOutcome with
      | Resolved _ => Return (mkPermissions true true)
      | Rejected error => inferWrite error
      end
  end.

(** ** One call of a public method *)

Inductive Method : Type :=
  | GetUserProfile (params : GetUserProfileParams.t)
  | GetAllUsers (params : option GetAllUsersParams.t)
  | ListProjects (params : option (gmap string JsVal))
  | ListRepositories (params : ListRepositoriesParams.t)
  | GetRepository (params : GetRepositoryParams.t)
  | GetInboxPullRequests (params : option (gmap string JsVal))
  | GetDashboardPullRequests (params : option (gmap string JsVal))
  | GetPullRequest (params : GetPullRequestParams.t)
  | CreatePullRequest (params : CreatePullRequestParams.t)
  | GetPullRequestChanges (params : GetPullRequestChangesParams.t)
  | GetPullRequestFileDiff (params : GetPullRequestFileDiffParams.t)
  | GetPullRequestDiff (params : GetPullRequestDiffParams.t)
  | GetPullRequestActivities (params : GetPullRequestActivitiesParams.t)
  | AddPullRequestComment (params : AddPullRequestCommentParams.t)
  | DeletePullRequestComment (params : DeletePullRequestCommentParams.t)
  | UpdateReviewStatus (params : UpdateReviewStatusParams.t)
  | AddPullRequestCommentReaction (params : PullRequestCommentReactionParams.t)
  | RemovePullRequestCommentReaction (params : PullRequestCommentReactionParams.t)
  | GetRequiredReviewers (params : GetRequiredReviewersParams.t)
  | Browse (params : BrowseParams.t)
  | GetRawContent (params : GetRawContentParams.t)
  | CheckRepositoryPermissions (params : CheckRepositoryPermissionsParams.t).

(** What the promise of a method resolves to. *)
Inductive Returned : Type :=
  | Data (d : JsVal)
  | Void
  | Permissions (p : RepositoryPermissions).

Definition data (m : Async JsVal) : Async Returned := d <- m ;; Return (Data d).

Definition void (m : Async unit) : Async Returned := _ <- m ;; Return Void.

Definition invoke (this : BitbucketClient) (c : Method) : Async Returned :=
  match c with
  | GetUserProfile params => data (getUserProfile params)
  | GetAllUsers params => data (getAllUsers params)
  | ListProjects params => data (listProjects params)
  | ListRepositories params => data (listRepositories params)
  | GetRepository params => data (getRepository params)
  | GetInboxPullRequests params => data (getInboxPullRequests params)
  | GetDashboardPullRequests params => data (getDashboardPullRequests params)
  | GetPullRequest params => data (getPullRequest params)
  | CreatePullRequest params => data (createPullRequest params)
  | GetPullRequestChanges params => data (getPullRequestChanges params)
  | GetPullRequestFileDiff params => data (getPullRequestFileDiff params)
  | GetPullRequestDiff params => data (getPullRequestDiff params)
  | GetPullRequestActivities params => data (getPullRequestActivities params)
  | AddPullRequestComment params => data (addPullRequestComment params)
  | DeletePullRequestComment params => void (deletePullRequestComment params)
  | UpdateReviewStatus params => data (updateReviewStatus params)
  | AddPullRequestCommentReaction params => data (addPullRequestCommentReaction this params)
  | RemovePullRequestCommentReaction params =>
      void (removePullRequestCommentReaction this params)
  | GetRequiredReviewers params => data (getRequiredReviewers this params)
  | Browse params => data (browse params)
  | GetRawContent params => data (getRawContent params)
  | CheckRepositoryPermissions params =>
      p <- checkRepositoryPermissions params ;; Return (Permissions p)
  end.

(** The requests that the two-request methods start with. *)
Definition propertiesRequest : Request :=
  mkRequest GET [Lit "/application-properties"] None noConfig.

Definition readProbe (params : CheckRepositoryPermissionsParams.t) : Request :=
  mkRequest GET
    (repoUrl (CheckRepositoryPermissionsParams.projectKey params)
             (CheckRepositoryPermissionsParams.repositorySlug params))
    None noConfig.

Definition writeProbe (params : CheckRepositoryPermissionsParams.t) : Request :=
  mkRequest POST
    [Sub (render (repoUrl (CheckRepositoryPermissionsParams.projectKey params)
                          (CheckRepositoryPermissionsParams.repositorySlug params)));
     Lit "/branches"]
    (Some (JObj [])) noConfig.

(** The update that [updateReviewStatus] sends for a given user slug header. *)
Definition participantRequest (params : UpdateReviewStatusParams.t)
    (userSlug : option string) : Request :=
  mkRequest PUT
    (pullRequestUrl (UpdateReviewStatusParams.projectKey params)
                    (UpdateReviewStatusParams.repositorySlug params)
                    (UpdateReviewStatusParams.pullRequestId params)
       ++ [Lit "/participants/"; strOrUndefined userSlug])%list
    (Some (JObj [("status", JStr (UpdateReviewStatusParams.status params))])) noConfig.

(** The two endpoints of the sibling plugins. *)
Definition reactionEndpoint : Endpoint :=
  [Some "/comment-likes/latest/projects/"; None; Some "/repos/"; None;
   Some "/pull-requests/"; None; Some "/comments/"; None; Some "/reactions/"; None].

Definition reviewersEndpoint : Endpoint :=
  [Some "/default-reviewers/latest/projects/"; None; Some "/repos/"; None;
   Some "/reviewers"].

Definition isPluginEndpoint (e : Endpoint) : bool :=
  bool_decide (e = reactionEndpoint) || bool_decide (e = reviewersEndpoint).

(** Requests of a run, and the substring relation of the spec. *)
Definition requests {Server A : Type} (r : Run Server A) : list Request :=
  (trace r).*1.

Definition contains (s x : string) : Prop :=
  exists a b : string, s = a +:+ x +:+ b.

Definition hasPrefix (s p : string) : Prop :=
  exists rest : string, s = p +:+ rest.

(** The reference form that the spec asks for: [b] itself when it starts
    with [refs/], [refs/heads/] followed by [b] otherwise. *)
Definition normalized (b id : string) : Prop :=
  (hasPrefix b "refs/" /\ id = b) \/ (~ hasPrefix b "refs/" /\ id = "refs/heads/" +:+ b).

(** Where the reference identifiers sit in a request. *)
Definition bodyRefId (k : string) (r : Request) : option JsVal :=
  body ← req_data r; ref ← getProp k body; getProp "id" ref.

Definition queryParam (k : string) (r : Request) : option JsVal :=
  q ← cfg_params (req_config r); q !! k.

Definition header (k : string) (r : Request) : option string :=
  h ← cfg_headers (req_config r); h !! k.

(** ** Servers used in the examples *)

Definition networkError : AxiosError := mkError "ECONNREFUSED" None.

(** The first error message of a failure, in the words of the spec: the
    rejection is an axios error with a response whose body is an object, its
    [errors] an array, the first entry of the array an object, and [m] the
    [message] of that entry. *)
Inductive FirstMessage : JsError -> JsVal -> Prop :=
  | first_message (code : string) (status : Z) (fields entry : list (string * JsVal))
      (rest : list JsVal) (m : JsVal) :
      assoc "errors" fields = Some (JArr (JObj entry :: rest)) ->
      assoc "message" entry = Some m ->
      FirstMessage (Axios (mkError code (Some (mkErrorResponse status (JObj fields))))) m.

(** A failure that carries no first error message: it is no axios error, or
    has no response, or a body without [errors], or [errors] that are neither
    an array nor an object, or an empty array, or a first entry without
    [message]. *)
Inductive NoFirstMessage : JsError -> Prop :=
  | not_an_axios_error (message : string) : NoFirstMessage (TypeError message)
  | no_response (code : string) : NoFirstMessage (Axios (mkError code None))
  | no_errors (code : string) (status : Z) (body : JsVal) :
      getProp "errors" body = None ->
      NoFirstMessage (Axios (mkError code (Some (mkErrorResponse status body))))
  | errors_not_a_list (code : string) (status : Z) (body errors : JsVal) :
      getProp "errors" body = Some errors ->
      (forall items, errors <> JArr items) ->
      (forall fields, errors <> JObj fields) ->
      NoFirstMessage (Axios (mkError code (Some (mkErrorResponse status body))))
  | errors_empty (code : string) (status : Z) (body : JsVal) :
      getProp "errors" body = Some (JArr []) ->
      NoFirstMessage (Axios (mkError code (Some (mkErrorResponse status body))))
  | no_message (code : string) (status : Z) (body first : JsVal) (rest : list JsVal) :
      getProp "errors" body = Some (JArr (first :: rest)) ->
      getProp "message" first = None ->
      NoFirstMessage (Axios (mkError code (Some (mkErrorResponse status body)))).

(** A server that is down: every request is rejected. *)
Definition down (s : unit) (r : Request) : Settled Response * unit :=
  (Rejected networkError, s).

(** A server that replays a script of outcomes, then goes down. *)
Definition replay (s : list (Settled Response)) (r : Request)
    : Settled Response * list (Settled Response) :=
  match s with
  | o :: rest => (o, rest)
  | [] => (Rejected networkError, [])
  end.

Definition ok (h : gmap string string) (d : JsVal) : Settled Response :=
  Resolved (mkResponse 200 h d).

(** A failure response with the body [{ errors: entries }]. *)
Definition failureWith (status : Z) (entries : list JsVal) : Settled Response :=
  Rejected (mkError "ERR_BAD_REQUEST"
              (Some (mkErrorResponse status (JObj [("errors", JArr entries)])))).

(** The entry [{ message: m }], or [{}] without a message. *)
Definition errorEntry (m : option JsVal) : JsVal :=
  JObj match m with Some v => [("message", v)] | None => [] end.

Definition failure (status : Z) (messages : list (option string)) : Settled Response :=
  failureWith status ((fun m => errorEntry (JStr <$> m)) <$> messages).

Definition exampleRepo : CheckRepositoryPermissionsParams.t :=
  CheckRepositoryPermissionsParams.mk "PROJ" "my-repo".

Definition examplePullRequestId : SafeInteger := mkSafeInteger 123 eq_refl.

Definition exampleCommentId : SafeInteger := mkSafeInteger 456 eq_refl.

Definition exampleReview : UpdateReviewStatusParams.t :=
  UpdateReviewStatusParams.mk "PROJ" "my-repo" examplePullRequestId "APPROVED".

Definition exampleClient : BitbucketClient :=
  newClient (mkClientConfig "secret" "https://bitbucket.example.com" None).

Definition exampleRaw : GetRawContentParams.t :=
  GetRawContentParams.mk "PROJ" "my-repo" "package.json" None.

Definition exampleRawRequest : Request :=
  mkRequest GET
    [Lit "/projects/"; Sub "PROJ"; Lit "/repos/"; Sub "my-repo"; Lit "/raw/";
     Sub "package.json"]
    None (mkConfig (Some ∅) (Some {["Accept" := "text/plain"]}) None).

(** The tails of a string, the string itself first. *)
Fixpoint tails (s : string) : list string :=
  s :: match s with
       | EmptyString => []
       | String _ s' => tails s'
       end.

(** Example calls on the plugin endpoints. *)
Definition exampleReaction : PullRequestCommentReactionParams.t :=
  PullRequestCommentReactionParams.mk "PROJ" "my-repo" examplePullRequestId
    exampleCommentId "thumbsup".

Definition exampleReactionRequest : Request :=
  mkRequest PUT
    (reactionUrl "PROJ" "my-repo" examplePullRequestId exampleCommentId "thumbsup")
    (Some (JObj []))
    (mkConfig None None (pluginBase exampleClient)).

Definition exampleFullUrlConfig : BitbucketClientConfig :=
  mkClientConfig "secret" "https://bitbucket.example.com/rest/api/latest" None.

(** axios, on the config it is given: a truthy [auth] option makes it send
    HTTP Basic credentials, which sets the [Authorization] of the request and
    overwrites the one given through [headers]. *)
Definition basicAuth (config : AxiosConfig) : option JsVal :=
  match others config !! "auth" with
  | Some credentials => if truthy credentials then Some credentials else None
  | None => None
  end.

(** The last clause of C9: the caller's configuration cannot replace the
    bearer token. *)
Definition bearerCannotBeReplaced (config : BitbucketClientConfig) : Prop :=
  basicAuth (defaults (newClient config)) = None.

Definition exampleAuthConfig : BitbucketClientConfig :=
  mkClientConfig "secret" "https://bitbucket.example.com"
    (Some (mkAxiosConfig None None
             {["auth" := JObj [("username", JStr "u"); ("password", JStr "p")]]})).

(** axios, on the headers: the header that the request config gives, the
    header of the instance defaults otherwise. *)
Definition effectiveHeader (this : BitbucketClient) (k : string) (r : Request)
    : option string :=
  match header k r with
  | Some v => Some v
  | None => h ← headers (defaults this); h !! k
  end.

(** The header that the caller's [axiosConfig] gives under a name. *)
Definition callerHeader (config : BitbucketClientConfig) (k : string) : option string :=
  c ← axiosConfig config; h ← headers c; h !! k.

Definition exampleAcceptConfig : BitbucketClientConfig :=
  mkClientConfig "secret" "https://bitbucket.example.com"
    (Some (mkAxiosConfig None (Some {["Accept" := "text/plain"]}) ∅)).

Definition exampleProfile : GetUserProfileParams.t := GetUserProfileParams.mk "jdoe".

Definition exampleProfileRequest : Request :=
  mkRequest GET [Lit "/users/"; Sub "jdoe"] None noConfig.

Definition exampleDiff (format : option string) : GetPullRequestDiffParams.t :=
  GetPullRequestDiffParams.mk "PROJ" "my-repo" examplePullRequestId None None None None
    None format.

(** The literals that the urls of the methods start with. *)
Definition literalRoots : list string :=
  ["/users"; "/projects"; "/inbox/pull-requests"; "/dashboard/pull-requests";
   "/application-properties"; "/comment-likes/latest/projects/";
   "/default-reviewers/latest/projects/"].

(** axios [isAbsoluteURL], the test [/^([a-z][a-z\d+\-.]*:)?\/\//i]: the url
    starts with [//], or with a scheme, a colon and [//]. *)
Definition isLetter (c : ascii) : bool :=
  let n := nat_of_ascii c in
  ((65 <=? n) && (n <=? 90) || (97 <=? n) && (n <=? 122))%nat.

Definition isSchemeChar (c : ascii) : bool :=
  let n := nat_of_ascii c in
  (isLetter c || (48 <=? n) && (n <=? 57) || (n =? 43) || (n =? 45) || (n =? 46))%nat.

Fixpoint afterScheme (s : string) : bool :=
  match s with
  | EmptyString => false
  | String c rest =>
      if Ascii.eqb c ":" then startsWith rest "//"
      else if isSchemeChar c then afterScheme rest else false
  end.

Definition isAbsoluteURL (url : string) : bool :=
  startsWith url "//" ||
  match url with
  | String c rest => isLetter c && afterScheme rest
  | EmptyString => false
  end.

(** The method that wraps its awaits in [try]. *)
Definition catchesErrors (c : Method) : bool :=
  match c with
  | CheckRepositoryPermissions _ => true
  | _ => false
  end.

(** Every request that failed during the call is what the call rejects
    with. *)
Definition surfacesErrors {Server : Type}
    (respond : Server -> Request -> Settled Response * Server)
    (this : BitbucketClient) (c : Method) (s : Server) : Prop :=
  forall r e,
    (r, Rejected e) ∈ trace (run respond (invoke this c) s) ->
    outcome (run respond (invoke this c) s) = Rejected e.

(** The methods that await one call. *)
Definition awaitsOnce (c : Method) : bool :=
  match c with
  | UpdateReviewStatus _ | CheckRepositoryPermissions _ => false
  | _ => true
  end.

(** What a method sends for an optional string, or an optional number, that
    it guards by truthiness ([if (x) ...], [x ? ... : ...], [x && ...]):
    nothing for a missing, empty or zero value. *)
Definition sentStr (o : option string) : option JsVal :=
  match o with
  | Some s => if String.eqb s "" then None else Some (JStr s)
  | None => None
  end.

Definition sentNum (o : option Z) : option JsVal :=
  match o with
  | Some n => if Z.eqb n 0 then None else Some (JNum n)
  | None => None
  end.

(** The entry of the [reviewers] array for one username. *)
Definition reviewerEntry (username : string) : JsVal :=
  JObj [("user", JObj [("name", JStr username)])].

(** The methods whose source holds only [get] calls. *)
Definition readOnly (c : Method) : bool :=
  match c with
  | CreatePullRequest _ | AddPullRequestComment _ | DeletePullRequestComment _
  | UpdateReviewStatus _ | AddPullRequestCommentReaction _
  | RemovePullRequestCommentReaction _ | CheckRepositoryPermissions _ => false
  | _ => true
  end.

(** What a method that awaits once makes of a resolved response. *)
Definition returned (c : Method) (x : Response) : Returned :=
  match c with
  | DeletePullRequestComment _ | RemovePullRequestCommentReaction _ => Void
  | _ => Data (resp_data x)
  end.

(** ** Strings *)

Lemma stripPrefix_Some (p s r : string) :
  stripPrefix p s = Some r <-> s = p +:+ r.
Proof.
  revert s. induction p as [|a p IH]; intros s; simpl.
  - split; [intros [= ->] | intros ->]; reflexivity.
  - destruct s as [|b s]; simpl.
    + split; discriminate.
    + destruct (Ascii.eqb_spec a b) as [->|Hne].
      * rewrite IH. split; [intros -> | intros [= ->]]; reflexivity.
      * split; [discriminate | intros [= -> _]; contradiction].
Qed.

Lemma startsWith_spec (s p : string) :
  startsWith s p = true <-> hasPrefix s p.
Proof.
  unfold startsWith, hasPrefix.
  destruct (stripPrefix p s) as [r|] eqn:E.
  - apply stripPrefix_Some in E. split; eauto.
  - split; [discriminate | intros [r Hr]].
    apply stripPrefix_Some in Hr. congruence.
Qed.

Lemma includes_startsWith (s x : string) :
  startsWith s x = true -> includes s x = true.
Proof. destruct s; simpl; intros ->; reflexivity. Qed.

Lemma includes_spec (s x : string) :
  includes s x = true <-> contains s x.
Proof.
  split.
  - induction s as [|c s IH]; simpl; intros H; apply orb_true_iff in H as [H|H].
    + apply startsWith_spec in H as [r ->]. exists "", r. reflexivity.
    + discriminate.
    + apply startsWith_spec in H as [r Hr]. exists "", r. exact Hr.
    + destruct (IH H) as (a & b & ->). exists (String c a), b. reflexivity.
  - intros (a & b & ->). induction a as [|c a IH]; simpl.
    + apply includes_startsWith, startsWith_spec. exists b. reflexivity.
    + apply orb_true_iff. right. exact IH.
Qed.

Lemma toRefId_normalized (b : string) : normalized b (toRefId b).
Proof.
  unfold normalized, toRefId.
  destruct (startsWith b "refs/") eqn:E.
  - left. split; [apply startsWith_spec, E | reflexivity].
  - right. split; [|reflexivity].
    intros H. apply startsWith_spec in H. congruence.
Qed.

(** *** Examples *)

Example toRefId_branch : toRefId "main" = "refs/heads/main".
Proof. reflexivity. Qed.

Example toRefId_qualified : toRefId "refs/tags/v1" = "refs/tags/v1".
Proof. reflexivity. Qed.

Example toRefId_prefix_only : toRefId "refs" = "refs/heads/refs".
Proof. reflexivity. Qed.

Example includes_inside : includes "The name field is required" "required" = true.
Proof. reflexivity. Qed.

Example includes_case_sensitive : includes "Name is Required" "name" = false.
Proof. reflexivity. Qed.

Example replace_first_occurrence :
  replace "https://h/rest/api/latest/x/rest/api/latest" "/rest/api/latest" "/rest" =
  "https://h/rest/x/rest/api/latest".
Proof. reflexivity. Qed.

Example createPullRequestBody_cross_repo :
  createPullRequestBody
    (CreatePullRequestParams.mk "UPSTREAM" "upstream-repo" "Contribution from fork" None
       "feature" "main" (Some "my-fork") (Some "MYPROJ") (Some []) None) =
  JObj [("title", JStr "Contribution from fork");
        ("fromRef",
         JObj [("id", JStr "refs/heads/feature");
               ("repository",
                JObj [("slug", JStr "my-fork");
                      ("project", JObj [("key", JStr "MYPROJ")])])]);
        ("toRef", JObj [("id", JStr "refs/heads/main")])].
Proof. reflexivity. Qed.

Example constructor_overrides_caller :
  let caller :=
    mkAxiosConfig (Some "https://elsewhere.example.com")
      (Some {["Authorization" := "Basic abc"; "X-Custom-Header" := "value"]})
      {["timeout" := JNum 10000]} in
  let d :=
    defaults (newClient (mkClientConfig "secret" "https://bitbucket.example.com"
                           (Some caller))) in
  baseURL d = Some "https://bitbucket.example.com/rest/api/latest" /\
  (headers d ≫= lookup "Authorization") = Some "Bearer secret" /\
  (headers d ≫= lookup "X-Custom-Header") = Some "value" /\
  others d !! "timeout" = Some (JNum 10000).
Proof. repeat split. Qed.

Example dashboard_role_overridden :
  let q := dashboardQuery (Some {["role" := JStr "REVIEWER"; "limit" := JNum 5]}) in
  q !! "role" = Some (JStr "REVIEWER") /\
  q !! "state" = Some (JStr "OPEN") /\
  q !! "order" = Some (JStr "NEWEST") /\
  q !! "limit" = Some (JNum 5) /\
  q !! "start" = None.
Proof. repeat split. Qed.

(** ** Running the methods *)

Section Runs.

Context {Server : Type}.
Variable respond : Server -> Request -> Settled Response * Server.

(** A method that awaits one call and returns a function of the response:
    one exchange, and the rejection, if any, is the method's own. *)
Lemma run_single {A : Type} (r : Request) (f : Response -> A) (s : Server) :
  run respond (x <- await r ;; Return (f x)) s =
  mkRun
    (match (respond s r).1 with
     | Resolved x => Resolved (f x)
     | Rejected e => Rejected e
     end)
    (respond s r).2
    [(r, (respond s r).1)].
Proof.
  simpl. destruct (respond s r) as [[x|e] s']; reflexivity.
Qed.

Lemma run_bind {A B : Type} (m : Async A) (f : A -> Async B) (s : Server) :
  run respond (x <- m ;; f x) s =
  match outcome (run respond m s) with
  | Resolved a =>
      let rest := run respond (f a) (final (run respond m s)) in
      mkRun (outcome rest) (final rest) (trace (run respond m s) ++ trace rest)
  | Rejected e => mkRun (Rejected e) (final (run respond m s)) (trace (run respond m s))
  end.
Proof.
  revert s. induction m as [a|e|r k IH]; intros s; simpl.
  - destruct (run respond (f a) s); reflexivity.
  - reflexivity.
  - destruct (respond s r) as [o s']. rewrite IH.
    destruct (outcome (run respond (k o) s')); reflexivity.
Qed.

End Runs.

(** ** Branch names *)

(** C3. The reference identifiers that [createPullRequest] places in its
    body ([fromRef.id], [toRef.id]) and that [getRequiredReviewers] places in
    its query ([sourceRefId], [targetRefId]) are the branch name itself when
    it starts with [refs/], and [refs/heads/] followed by the branch name
    otherwise. *)
Theorem ref_ids_normalized {Server : Type}
    (respond : Server -> Request -> Settled Response * Server) (s : Server) :
  (forall params : CreatePullRequestParams.t,
     exists r o fromId toId,
       trace (run respond (createPullRequest params) s) = [(r, o)] /\
       bodyRefId "fromRef" r = Some (JStr fromId) /\
       normalized (CreatePullRequestParams.fromBranch params) fromId /\
       bodyRefId "toRef" r = Some (JStr toId) /\
       normalized (CreatePullRequestParams.toBranch params) toId) /\
  (forall (this : BitbucketClient) (params : GetRequiredReviewersParams.t),
     exists r o sourceId targetId,
       trace (run respond (getRequiredReviewers this params) s) = [(r, o)] /\
       queryParam "sourceRefId" r = Some (JStr sourceId) /\
       normalized (GetRequiredReviewersParams.sourceBranch params) sourceId /\
       queryParam "targetRefId" r = Some (JStr targetId) /\
       normalized (GetRequiredReviewersParams.targetBranch params) targetId).
Proof.
  split.
  - intros [pk rs title desc fb tb frs fpk revs draft].
    unfold createPullRequest, post. rewrite run_single. simpl.
    eexists _, _, (toRefId fb), (toRefId tb).
    split; [reflexivity|].
    repeat split; try apply toRefId_normalized.
    + unfold bodyRefId. simpl. destruct (truthyStr desc); reflexivity.
    + unfold bodyRefId. simpl. destruct (truthyStr desc); reflexivity.
  - intros this [pk rs rid sb tb].
    unfold getRequiredReviewers, get. rewrite run_single. simpl.
    eexists _, _, (toRefId sb), (toRefId tb).
    split; [reflexivity|].
    repeat split; try apply toRefId_normalized.
Qed.

(** ** Query defaults and instance defaults *)

Lemma dashboardQuery_lookup (params : option (gmap string JsVal)) (k : string) :
  dashboardQuery params !! k =
  match default ∅ params !! k with
  | Some v => Some v
  | None => dashboardDefaults !! k
  end.
Proof.
  unfold dashboardQuery. rewrite lookup_union.
  destruct (default ∅ params !! k), (dashboardDefaults !! k); reflexivity.
Qed.

(** C8. [getDashboardPullRequests] sends the defaults [role = AUTHOR],
    [state = OPEN], [order = NEWEST] merged with the caller's params: every key
    the caller supplies has the caller's value, every other key has its
    default, if it is one of the three, and is absent otherwise. *)
Theorem dashboard_defaults_merged {Server : Type}
    (respond : Server -> Request -> Settled Response * Server) (s : Server)
    (params : option (gmap string JsVal)) :
  exists r o q,
    trace (run respond (getDashboardPullRequests params) s) = [(r, o)] /\
    cfg_params (req_config r) = Some q /\
    (forall k : string,
       q !! k = match default ∅ params !! k with
                | Some v => Some v
                | None => dashboardDefaults !! k
                end) /\
    dashboardDefaults !! "role" = Some (JStr "AUTHOR") /\
    dashboardDefaults !! "state" = Some (JStr "OPEN") /\
    dashboardDefaults !! "order" = Some (JStr "NEWEST") /\
    dom dashboardDefaults = ({["role"; "state"; "order"]} : gset string).
Proof.
  unfold getDashboardPullRequests, get. rewrite run_single.
  eexists _, _, (dashboardQuery params).
  split; [reflexivity|]. split; [reflexivity|].
  split; [apply dashboardQuery_lookup|].
  repeat split.
Qed.

(** C9, as the code has it.  Whatever [axiosConfig] the caller supplies,
    the defaults built by the constructor have base url
    [baseUrl + '/rest/api/latest'], [Authorization: 'Bearer ' + token] and
    [Content-Type: application/json].  Every other header and every other
    option is the caller's and reaches axios as it is: so does an [auth]
    option, with which axios sends Basic credentials in place of the bearer
    token. *)
Theorem constructor_defaults_win (config : BitbucketClientConfig) :
  let user := default (mkAxiosConfig None None ∅) (axiosConfig config) in
  let d := defaults (newClient config) in
  baseURL d = Some (baseUrl config +:+ "/rest/api/latest") /\
  others d = others user /\
  basicAuth d = basicAuth user /\
  exists h,
    headers d = Some h /\
    h !! "Authorization" = Some ("Bearer " +:+ token config) /\
    h !! "Content-Type" = Some "application/json" /\
    forall k : string,
      h !! k =
      if decide (k = "Content-Type") then Some "application/json"
      else if decide (k = "Authorization") then Some ("Bearer " +:+ token config)
      else default ∅ (headers user) !! k.
Proof.
  simpl. split; [reflexivity|]. split; [reflexivity|]. split; [reflexivity|].
  eexists. split; [reflexivity|].
  split; [|split].
  - rewrite lookup_insert_ne by discriminate. apply lookup_insert_eq.
  - apply lookup_insert_eq.
  - intros k. rewrite !lookup_insert.
    repeat case_decide; subst; try reflexivity; congruence.
Qed.

(** C9, as the spec has it, fails in its last clause: the caller's [auth]
    option is part of the defaults that the constructor builds. *)
Lemma caller_auth_replaces_bearer : ~ bearerCannotBeReplaced exampleAuthConfig.
Proof. unfold bearerCannotBeReplaced. vm_compute. discriminate. Qed.

(** ** The shape of every run *)

Section Shapes.

Context {Server : Type}.
Variable respond : Server -> Request -> Settled Response * Server.

Lemma run_once (this : BitbucketClient) (c : Method) :
  awaitsOnce c = true ->
  exists (r : Request) (f : Response -> Returned),
    forall s : Server,
      run respond (invoke this c) s =
      mkRun
        (match (respond s r).1 with
         | Resolved x => Resolved (f x)
         | Rejected e => Rejected e
         end)
        (respond s r).2
        [(r, (respond s r).1)].
Proof.
  intros Hc. destruct c as [p|p|p|p|p|p|p|p|p|p|p|p|p|p|p|p|p|p|p|p|p|p];
    try discriminate Hc; try destruct p.
  all: lazymatch goal with
       | |- exists r f, forall s, run respond ?m s = _ =>
           let m' := eval hnf in m in
           lazymatch m' with
           | Call ?R ?K =>
               exists R; eexists; intros s;
               change m with (Call R K); cbn [run];
               destruct (respond s R) as [[x|e] s']; simpl; reflexivity
           end
       end.
Qed.

(** [updateReviewStatus]: the lookup, then the update addressed to the
    slug that the lookup's response names. *)
Lemma run_updateReviewStatus (params : UpdateReviewStatusParams.t) (s : Server) :
  run respond (updateReviewStatus params) s =
  match respond s propertiesRequest with
  | (Rejected e, s1) => mkRun (Rejected e) s1 [(propertiesRequest, Rejected e)]
  | (Resolved lookup, s1) =>
      let update := participantRequest params (resp_headers lookup !! "x-ausername") in
      match respond s1 update with
      | (Resolved x, s2) =>
          mkRun (Resolved (resp_data x)) s2
            [(propertiesRequest, Resolved lookup); (update, Resolved x)]
      | (Rejected e, s2) =>
          mkRun (Rejected e) s2
            [(propertiesRequest, Resolved lookup); (update, Rejected e)]
      end
  end.
Proof.
  destruct params as [pk rs id st].
  unfold updateReviewStatus, get, put. cbn [bind await run].
  fold propertiesRequest.
  destruct (respond s propertiesRequest) as [[lookup|e] s1]; [|reflexivity].
  cbn [bind run].
  change (mkRequest PUT _ _ _)
    with (participantRequest (UpdateReviewStatusParams.mk pk rs id st)
            (resp_headers lookup !! "x-ausername")).
  cbv zeta.
  destruct (respond s1 _) as [[x|e] s2]; reflexivity.
Qed.

(** The [catch] block of the write probe issues no request. *)
Lemma run_inferWrite (error : JsError) (s : Server) :
  run respond (inferWrite error) s =
  mkRun (outcome (run respond (inferWrite error) s)) s [].
Proof.
  unfold inferWrite. cbv zeta.
  destruct (jsIncludes _ "name") as [[|]|]; [|reflexivity|reflexivity].
  destruct (jsIncludes _ "required"); reflexivity.
Qed.

(** [checkRepositoryPermissions]: both probes are caught, and the [catch]
    block of the write probe decides. *)
Lemma run_checkRepositoryPermissions (params : CheckRepositoryPermissionsParams.t)
    (s : Server) :
  run respond (checkRepositoryPermissions params) s =
  match respond s (readProbe params) with
  | (Rejected e, s1) =>
      mkRun (Resolved (mkPermissions false false)) s1 [(readProbe params, Rejected e)]
  | (Resolved x, s1) =>
      match respond s1 (writeProbe params) with
      | (Resolved y, s2) =>
          mkRun (Resolved (mkPermissions true true)) s2
            [(readProbe params, Resolved x); (writeProbe params, Resolved y)]
      | (Rejected error, s2) =>
          mkRun (outcome (run respond (inferWrite error) s2)) s2
            [(readProbe params, Resolved x); (writeProbe params, Rejected error)]
      end
  end.
Proof.
  destruct params as [pk rs].
  unfold checkRepositoryPermissions, get, post. cbn [bind attempt await run].
  change (mkRequest GET _ _ _)
    with (readProbe (CheckRepositoryPermissionsParams.mk pk rs)).
  destruct (respond s _) as [[x|e] s1]; [|reflexivity].
  cbn [bind attempt run].
  change (mkRequest POST _ _ _)
    with (writeProbe (CheckRepositoryPermissionsParams.mk pk rs)).
  destruct (respond s1 _) as [[y|error] s2]; [reflexivity|].
  cbn [bind attempt run]. rewrite run_inferWrite. reflexivity.
Qed.

Lemma run_data (m : Async JsVal) (s : Server) :
  run respond (data m) s =
  mkRun
    (match outcome (run respond m s) with
     | Resolved d => Resolved (Data d)
     | Rejected e => Rejected e
     end)
    (final (run respond m s))
    (trace (run respond m s)).
Proof.
  unfold data. rewrite run_bind.
  destruct (outcome (run respond m s)); simpl; [rewrite app_nil_r|]; reflexivity.
Qed.

Lemma run_permissions (this : BitbucketClient)
    (params : CheckRepositoryPermissionsParams.t) (s : Server) :
  run respond (invoke this (CheckRepositoryPermissions params)) s =
  mkRun
    (match outcome (run respond (checkRepositoryPermissions params) s) with
     | Resolved p => Resolved (Permissions p)
     | Rejected e => Rejected e
     end)
    (final (run respond (checkRepositoryPermissions params) s))
    (trace (run respond (checkRepositoryPermissions params) s)).
Proof.
  cbn [invoke]. rewrite run_bind.
  destruct (outcome (run respond (checkRepositoryPermissions params) s)); simpl;
    [rewrite app_nil_r|]; reflexivity.
Qed.

End Shapes.

(** ** The permission probe *)

Lemma orElse_empty (o : option string) : orElse o "" = default "" o.
Proof.
  destruct o as [m|]; simpl; [|reflexivity].
  destruct (String.eqb_spec m ""); subst; reflexivity.
Qed.

(** *** What the [catch] block makes of the first error message *)

Lemma firstErrorMessage_first (error : JsError) (m : JsVal) :
  FirstMessage error m -> firstErrorMessage error = Some m.
Proof.
  intros [code status fields entry rest m' Herrors Hmessage].
  simpl. rewrite Herrors. simpl. exact Hmessage.
Qed.

Lemma firstErrorMessage_none (error : JsError) :
  NoFirstMessage error -> firstErrorMessage error = None.
Proof.
  intros [t|code|code status body H|code status body errors H Harr Hobj
          |code status body H|code status body first rest H Hm]; simpl;
    try reflexivity; rewrite H; simpl; try reflexivity.
  - destruct errors as [| |b|n|[|c str]|items|fields]; try reflexivity.
    + destruct (Harr items). reflexivity.
    + destruct (Hobj fields). reflexivity.
  - exact Hm.
Qed.

(** [Array.prototype.includes] with a string argument finds the string among
    the elements. *)
Lemma array_includes_spec (items : list JsVal) (x : string) :
  jsIncludes (JArr items) x = Some true <-> JStr x ∈ items.
Proof.
  simpl. induction items as [|item items IH]; simpl.
  - split; [discriminate | intros H; inversion H].
  - rewrite elem_of_cons. destruct item as [| |b|n|str|l|f]; simpl;
      try (split; [intros H; right; apply IH, H
                  | intros [H|H]; [discriminate H | apply IH, H]]).
    destruct (String.eqb_spec str x) as [->|Hne]; simpl.
    + split; auto.
    + split; [intros H; right; apply IH, H
             | intros [H|H]; [congruence | apply IH, H]].
Qed.

Section Verdicts.

Context {Server : Type}.
Variable respond : Server -> Request -> Settled Response * Server.

Lemma verdict_string (error : JsError) (msg : string) (s : Server) :
  firstErrorMessage error = Some (JStr msg) ->
  outcome (run respond (inferWrite error) s) =
  Resolved (mkPermissions true (includes msg "name" && includes msg "required")).
Proof.
  intros H. unfold inferWrite. rewrite H. simpl.
  destruct (String.eqb_spec msg "") as [->|_]; simpl; [reflexivity|].
  destruct (includes msg "name"); reflexivity.
Qed.

Lemma verdict_falsy (error : JsError) (s : Server) :
  (firstErrorMessage error = None \/
   exists m, firstErrorMessage error = Some m /\ truthy m = false) ->
  outcome (run respond (inferWrite error) s) = Resolved (mkPermissions true false).
Proof.
  intros [H|(m & H & Hm)]; unfold inferWrite; rewrite H; simpl;
    [|rewrite Hm]; reflexivity.
Qed.

Lemma verdict_array (error : JsError) (items : list JsVal) (s : Server) :
  firstErrorMessage error = Some (JArr items) ->
  exists write,
    outcome (run respond (inferWrite error) s) = Resolved (mkPermissions true write) /\
    (write = true <-> JStr "name" ∈ items /\ JStr "required" ∈ items).
Proof.
  intros H. unfold inferWrite. rewrite H. cbn [orValue truthy].
  destruct (jsIncludes (JArr items) "name") as [[|]|] eqn:Hname;
    [|..]; try discriminate Hname.
  - destruct (jsIncludes (JArr items) "required") as [w|] eqn:Hreq;
      [|discriminate Hreq].
    exists w. split; [reflexivity|].
    rewrite <- !array_includes_spec, Hname, Hreq.
    split; [intros ->; auto | intros [_ [= ->]]; reflexivity].
  - exists false. split; [reflexivity|].
    rewrite <- !array_includes_spec, Hname.
    split; [discriminate | intros [[=] _]].
Qed.

Lemma verdict_other (error : JsError) (m : JsVal) (s : Server) :
  firstErrorMessage error = Some m ->
  truthy m = true ->
  (forall msg, m <> JStr msg) ->
  (forall items, m <> JArr items) ->
  outcome (run respond (inferWrite error) s) = Rejected notAFunction.
Proof.
  intros H Htruthy Hstr Harr. unfold inferWrite. rewrite H. simpl. rewrite Htruthy.
  destruct m as [| |b|n|str|items|fields]; try reflexivity.
  - destruct (Hstr str). reflexivity.
  - destruct (Harr items). reflexivity.
Qed.

(** The [catch] block resolves, with [read] set, or throws its [TypeError]. *)
Lemma verdict_cases (error : JsError) (s : Server) :
  (exists write,
     outcome (run respond (inferWrite error) s) = Resolved (mkPermissions true write)) \/
  outcome (run respond (inferWrite error) s) = Rejected notAFunction.
Proof.
  unfold inferWrite. cbv zeta.
  destruct (jsIncludes _ "name") as [[|]|]; [|left; eexists; reflexivity|right; reflexivity].
  destruct (jsIncludes _ "required"); [left; eexists|right]; reflexivity.
Qed.

End Verdicts.

(** C2, as the code has it.  [checkRepositoryPermissions] infers write access
    from the failure of its probe POST to [/branches] with an empty body.  A
    failed read probe gives [{ read: false, write: false }].  After a
    successful read probe, a failed write probe gives [read = true] and: for a
    first error message that is a string, [write = true] exactly when it
    contains both [name] and [required]; [write = false] when there is no
    first error message or it is falsy; for a first error message that is an
    array, [write = true] exactly when [name] and [required] are among its
    elements; for any other first error message the [catch] block throws a
    [TypeError] and the call is rejected with it. *)
Theorem write_access_inferred {Server : Type}
    (respond : Server -> Request -> Settled Response * Server) (s : Server)
    (params : CheckRepositoryPermissionsParams.t) :
  (forall e s1,
     respond s (readProbe params) = (Rejected e, s1) ->
     outcome (run respond (checkRepositoryPermissions params) s) =
     Resolved (mkPermissions false false)) /\
  (forall x s1 error s2,
     respond s (readProbe params) = (Resolved x, s1) ->
     respond s1 (writeProbe params) = (Rejected error, s2) ->
     (forall msg,
        FirstMessage error (JStr msg) ->
        exists w : bool,
          outcome (run respond (checkRepositoryPermissions params) s) =
          Resolved (mkPermissions true w) /\
          (w = true <-> contains msg "name" /\ contains msg "required")) /\
     (NoFirstMessage error ->
      outcome (run respond (checkRepositoryPermissions params) s) =
      Resolved (mkPermissions true false)) /\
     (forall m,
        FirstMessage error m -> truthy m = false ->
        outcome (run respond (checkRepositoryPermissions params) s) =
        Resolved (mkPermissions true false)) /\
     (forall items,
        FirstMessage error (JArr items) ->
        exists w : bool,
          outcome (run respond (checkRepositoryPermissions params) s) =
          Resolved (mkPermissions true w) /\
          (w = true <-> JStr "name" ∈ items /\ JStr "required" ∈ items)) /\
     (forall m,
        FirstMessage error m -> truthy m = true ->
        (forall msg, m <> JStr msg) -> (forall items, m <> JArr items) ->
        outcome (run respond (checkRepositoryPermissions params) s) =
        Rejected notAFunction)) /\
  req_verb (writeProbe params) = POST /\
  req_data (writeProbe params) = Some (JObj []) /\
  render (req_url (writeProbe params)) =
    render (req_url (readProbe params)) +:+ "/branches".
Proof.
  split; [|split].
  - intros e s1 H. rewrite run_checkRepositoryPermissions, H. reflexivity.
  - intros x s1 error s2 H1 H2.
    rewrite run_checkRepositoryPermissions, H1, H2. cbn [outcome].
    split; [|split; [|split; [|split]]].
    + intros msg Hm. apply firstErrorMessage_first in Hm.
      rewrite (verdict_string respond error msg s2 Hm).
      eexists. split; [reflexivity|].
      rewrite andb_true_iff, !includes_spec. reflexivity.
    + intros Hnone. apply verdict_falsy. left.
      apply firstErrorMessage_none, Hnone.
    + intros m Hm Hfalsy. apply verdict_falsy. right.
      exists m. split; [apply firstErrorMessage_first, Hm | exact Hfalsy].
    + intros items Hm. apply verdict_array, firstErrorMessage_first, Hm.
    + intros m Hm Htruthy Hstr Harr.
      apply (verdict_other respond error m s2); auto using firstErrorMessage_first.
  - repeat split.
Qed.

Lemma write_access_inferred_witness :
  outcome (run replay (checkRepositoryPermissions exampleRepo) [failure 401 []]) =
    Resolved (mkPermissions false false) /\
  outcome (run replay (checkRepositoryPermissions exampleRepo)
             [ok ∅ JNull;
              failure 400 [Some "The name field is required"; Some "Try again"]]) =
    Resolved (mkPermissions true true) /\
  outcome (run replay (checkRepositoryPermissions exampleRepo)
             [ok ∅ JNull;
              failure 403 [Some "You are not permitted"; Some "name is required"]]) =
    Resolved (mkPermissions true false).
Proof.
  split; [|split].
  - exact (proj1 (write_access_inferred replay [failure 401 []] exampleRepo)
             _ _ eq_refl).
  - pose proof (proj1 (proj1 (proj2 (write_access_inferred replay
                  [ok ∅ JNull;
                   failure 400 [Some "The name field is required"; Some "Try again"]]
                  exampleRepo)) _ _ _ _ eq_refl eq_refl)) as Hstring.
    destruct (Hstring "The name field is required") as (w & Hrun & Hw).
    { eapply first_message; reflexivity. }
    rewrite Hrun. f_equal. f_equal. apply Hw.
    split; apply includes_spec; reflexivity.
  - pose proof (proj1 (proj1 (proj2 (write_access_inferred replay
                  [ok ∅ JNull;
                   failure 403 [Some "You are not permitted"; Some "name is required"]]
                  exampleRepo)) _ _ _ _ eq_refl eq_refl)) as Hstring.
    destruct (Hstring "You are not permitted") as (w & Hrun & Hw).
    { eapply first_message; reflexivity. }
    rewrite Hrun. f_equal. f_equal. destruct w; [|reflexivity].
    destruct (proj1 Hw eq_refl) as [Hname _].
    apply includes_spec in Hname. discriminate Hname.
Defined.

(** C2, as the spec has it, fails: when the first error message of the
    failed write probe is the number 42, the call does not return
    [write = false]; it is rejected. *)
Lemma numeric_message_is_not_write_false :
  ~ exists w,
      outcome (run replay (checkRepositoryPermissions exampleRepo)
                 [ok ∅ JNull; failureWith 400 [errorEntry (Some (JNum 42))]]) =
      Resolved (mkPermissions true w).
Proof. intros [w H]. discriminate H. Qed.

(** C10, as the code has it.  [checkRepositoryPermissions] never propagates
    the error of a probe.  It resolves to a permissions value, which never has
    [write] without [read], or, only after a rejected write probe whose
    failure has a first error message that is not a string, it is rejected
    with the [TypeError] that its own [catch] block throws. *)
Theorem permissions_always_returned {Server : Type}
    (respond : Server -> Request -> Settled Response * Server) (s : Server)
    (params : CheckRepositoryPermissionsParams.t) :
  ((exists perms : RepositoryPermissions,
      outcome (run respond (checkRepositoryPermissions params) s) = Resolved perms /\
      (write perms = true -> read perms = true) /\
      perms <> mkPermissions false true) \/
   (outcome (run respond (checkRepositoryPermissions params) s) = Rejected notAFunction /\
    exists x s1 error s2,
      respond s (readProbe params) = (Resolved x, s1) /\
      respond s1 (writeProbe params) = (Rejected error, s2) /\
      ~ NoFirstMessage error /\
      forall msg, ~ FirstMessage error (JStr msg))) /\
  (forall r e,
     (r, Rejected e) ∈ trace (run respond (checkRepositoryPermissions params) s) ->
     outcome (run respond (checkRepositoryPermissions params) s) <> Rejected e).
Proof.
  rewrite run_checkRepositoryPermissions.
  destruct (respond s (readProbe params)) as [[x|e0] s1].
  - destruct (respond s1 (writeProbe params)) as [[y|error] s2] eqn:Hwrite;
      cbn [outcome trace].
    + split.
      * left. eexists. split; [reflexivity|]. split; simpl; [auto | discriminate].
      * intros r e Hin. set_unfold in Hin.
        destruct Hin as [Hin|[Hin|Hin]]; try discriminate Hin; contradiction.
    + destruct (verdict_cases respond error s2) as [[w Hw]|Hthrow].
      * rewrite Hw. split.
        -- left. eexists. split; [reflexivity|]. split; simpl; [auto | discriminate].
        -- discriminate.
      * split.
        -- right. split; [exact Hthrow|]. exists x, s1, error, s2.
           split; [reflexivity|]. split; [exact Hwrite|]. split.
           ++ intros Hnone.
              rewrite (verdict_falsy respond error s2) in Hthrow;
                [discriminate Hthrow | left; apply firstErrorMessage_none, Hnone].
           ++ intros msg Hm. apply firstErrorMessage_first in Hm.
              rewrite (verdict_string respond error msg s2 Hm) in Hthrow.
              discriminate Hthrow.
        -- rewrite Hthrow. intros r e Hin. set_unfold in Hin.
           destruct Hin as [Hin|[Hin|Hin]]; try contradiction.
           ++ discriminate Hin.
           ++ injection Hin as _ <-. intros [= <-]. discriminate Hthrow.
  - cbn [outcome trace]. split.
    + left. eexists. split; [reflexivity|]. split; simpl; [auto | discriminate].
    + discriminate.
Qed.

Lemma permissions_always_returned_witness :
  outcome (run replay (checkRepositoryPermissions exampleRepo)
             [ok ∅ JNull; failure 400 [Some "The name field is required"]]) <>
  Rejected (mkError "ERR_BAD_REQUEST"
              (Some (mkErrorResponse 400
                       (JObj [("errors",
                               JArr [errorEntry
                                       (Some (JStr "The name field is required"))])])))).
Proof.
  apply (proj2 (permissions_always_returned replay
                  [ok ∅ JNull; failure 400 [Some "The name field is required"]]
                  exampleRepo) (writeProbe exampleRepo)).
  right. left.
Defined.

(** C10, as the spec has it, fails: when the first error message of the
    failed write probe is the number 42, the call returns no permissions
    value. *)
Lemma numeric_message_rejects_permission_check :
  ~ exists perms,
      outcome (run replay (checkRepositoryPermissions exampleRepo)
                 [ok ∅ JNull; failureWith 400 [errorEntry (Some (JNum 42))]]) =
      Resolved perms.
Proof. intros [perms H]. discriminate H. Qed.

(** ** The review status update *)

Lemma append_empty_r (s : string) : s +:+ "" = s.
Proof.
  induction s as [|c s IH]; [reflexivity|].
  change (String c (s +:+ "") = String c s). rewrite IH. reflexivity.
Qed.

(** C7. [updateReviewStatus] first sends a GET to [/application-properties];
    when that resolves, it reads [x-ausername] from the response headers and
    sends a PUT to the pull request's [participants/<slug>] url with the body
    [{ status }]; it returns the data of the PUT response. *)
Theorem review_status_flow {Server : Type}
    (respond : Server -> Request -> Settled Response * Server) (s : Server)
    (params : UpdateReviewStatusParams.t) (lookup : Response) (s1 : Server) :
  respond s propertiesRequest = (Resolved lookup, s1) ->
  let userSlug := resp_headers lookup !! "x-ausername" in
  let update := participantRequest params userSlug in
  requests (run respond (updateReviewStatus params) s) = [propertiesRequest; update] /\
  req_verb propertiesRequest = GET /\
  render (req_url propertiesRequest) = "/application-properties" /\
  req_verb update = PUT /\
  render (req_url update) =
    "/projects/" +:+ UpdateReviewStatusParams.projectKey params
    +:+ "/repos/" +:+ UpdateReviewStatusParams.repositorySlug params
    +:+ "/pull-requests/" +:+ pretty (UpdateReviewStatusParams.pullRequestId params)
    +:+ "/participants/" +:+ default "undefined" userSlug /\
  req_data update =
    Some (JObj [("status", JStr (UpdateReviewStatusParams.status params))]) /\
  outcome (run respond (updateReviewStatus params) s) =
    match (respond s1 update).1 with
    | Resolved x => Resolved (resp_data x)
    | Rejected e => Rejected e
    end.
Proof.
  intros Hlookup userSlug update.
  rewrite run_updateReviewStatus, Hlookup. cbv zeta. fold userSlug. fold update.
  split; [destruct (respond s1 update) as [[x|e] s2]; reflexivity|].
  do 3 (split; [reflexivity|]).
  split.
  - destruct params as [pk rs id st]. simpl. rewrite append_empty_r. reflexivity.
  - split; [reflexivity|].
    destruct (respond s1 update) as [[x|e] s2]; reflexivity.
Qed.

Lemma review_status_flow_witness :
  let script :=
    [ok {["x-ausername" := "jdoe"]} JNull; ok ∅ (JObj [("status", JStr "APPROVED")])] in
  render ∘ req_url <$> requests (run replay (updateReviewStatus exampleReview) script) =
    ["/application-properties";
     "/projects/PROJ/repos/my-repo/pull-requests/123/participants/jdoe"] /\
  outcome (run replay (updateReviewStatus exampleReview) script) =
    Resolved (JObj [("status", JStr "APPROVED")]).
Proof.
  intros script.
  destruct (review_status_flow replay script exampleReview _ _ eq_refl)
    as (Hreqs & _ & _ & _ & _ & _ & Hout).
  rewrite Hreqs, Hout. split; vm_compute; reflexivity.
Defined.

(** ** Error flow *)

(** C1, as the code has it.  Every method other than
    [checkRepositoryPermissions] rejects with exactly the error of the
    request that failed, and with nothing but the error of one of its own
    requests.  [checkRepositoryPermissions] catches the errors of its probes:
    it never rejects with the error of a probe; it resolves to a permissions
    value or is rejected with the [TypeError] of its own [catch] block. *)
Theorem errors_surface_unless_caught {Server : Type}
    (respond : Server -> Request -> Settled Response * Server)
    (this : BitbucketClient) (c : Method) (s : Server) :
  (catchesErrors c = false -> surfacesErrors respond this c s) /\
  (catchesErrors c = false ->
   forall e, outcome (run respond (invoke this c) s) = Rejected e ->
             exists r, (r, Rejected e) ∈ trace (run respond (invoke this c) s)) /\
  (catchesErrors c = true ->
   (forall r e,
      (r, Rejected e) ∈ trace (run respond (invoke this c) s) ->
      outcome (run respond (invoke this c) s) <> Rejected e) /\
   ((exists p, outcome (run respond (invoke this c) s) = Resolved (Permissions p)) \/
    outcome (run respond (invoke this c) s) = Rejected notAFunction)).
Proof.
  unfold surfacesErrors.
  destruct (awaitsOnce c) eqn:Honce.
  - destruct (run_once respond this c Honce) as (r0 & f & Hrun). rewrite Hrun. simpl.
    split; [|split].
    + intros _ r e Hin. apply list_elem_of_singleton in Hin. injection Hin as -> Ho.
      rewrite <- Ho. reflexivity.
    + intros _ e He. exists r0. apply list_elem_of_singleton.
      destruct (respond s r0).1; [discriminate | congruence].
    + destruct c; discriminate.
  - destruct c; try discriminate Honce.
    + cbn [invoke]. rewrite run_data, run_updateReviewStatus.
      destruct (respond s propertiesRequest) as [[lookup|e0] s1]; cbv zeta.
      * destruct (respond s1 _) as [[x|e1] s2]; simpl;
          (split; [|split]; [| |discriminate]).
        -- intros _ r e Hin. set_unfold in Hin.
           destruct Hin as [Hin|[Hin|Hin]]; congruence || contradiction.
        -- discriminate.
        -- intros _ r e Hin. set_unfold in Hin.
           destruct Hin as [Hin|[Hin|Hin]]; congruence || contradiction.
        -- intros _ e [= ->]. eexists. do 2 constructor.
      * simpl. split; [|split]; [| |discriminate].
        -- intros _ r e Hin. apply list_elem_of_singleton in Hin. congruence.
        -- intros _ e [= ->]. eexists. constructor.
    + rewrite run_permissions. cbn [outcome trace].
      split; [discriminate|]. split; [discriminate|]. intros _.
      pose proof (run_checkRepositoryPermissions respond params s) as Hrun.
      destruct (respond s (readProbe params)) as [[x|e0] s1].
      * destruct (respond s1 (writeProbe params)) as [[y|error] s2].
        -- rewrite Hrun. cbn [outcome trace]. split; [|eauto].
           intros r e Hin. set_unfold in Hin.
           destruct Hin as [Hin|[Hin|Hin]]; try discriminate Hin; contradiction.
        -- rewrite Hrun. cbn [outcome trace].
           destruct (verdict_cases respond error s2) as [[w Hw]|Hthrow].
           ++ rewrite Hw. split; [discriminate | eauto].
           ++ rewrite Hthrow. split; [|auto].
              intros r e Hin. set_unfold in Hin.
              destruct Hin as [Hin|[Hin|Hin]]; try contradiction.
              ** discriminate Hin.
              ** injection Hin as _ <-. intros [= <-]. discriminate Hthrow.
      * rewrite Hrun. cbn [outcome trace]. split; [discriminate | eauto].
Qed.

Lemma errors_surface_unless_caught_witness :
  outcome (run down (invoke exampleClient (UpdateReviewStatus exampleReview)) ()) =
    Rejected networkError /\
  ((exists p,
      outcome (run down (invoke exampleClient (CheckRepositoryPermissions exampleRepo)) ()) =
      Resolved (Permissions p)) \/
   outcome (run down (invoke exampleClient (CheckRepositoryPermissions exampleRepo)) ()) =
     Rejected notAFunction).
Proof.
  split.
  - apply (proj1 (errors_surface_unless_caught down exampleClient
                    (UpdateReviewStatus exampleReview) ()) eq_refl propertiesRequest).
    vm_compute. constructor.
  - exact (proj2 (proj2 (proj2 (errors_surface_unless_caught down exampleClient
                           (CheckRepositoryPermissions exampleRepo) ())) eq_refl)).
Defined.

(** C1, as the spec has it, fails: the read probe of
    [checkRepositoryPermissions] is rejected by a server that is down, and the
    method resolves. *)
Lemma errors_caught_by_permission_check :
  ~ surfacesErrors down exampleClient (CheckRepositoryPermissions exampleRepo) ().
Proof.
  intros H. specialize (H (readProbe exampleRepo) networkError).
  assert (Hin : (readProbe exampleRepo, Rejected networkError)
                ∈ trace (run down (invoke exampleClient
                                     (CheckRepositoryPermissions exampleRepo)) ())).
  { rewrite run_permissions, run_checkRepositoryPermissions. simpl. constructor. }
  specialize (H Hin).
  rewrite run_permissions, run_checkRepositoryPermissions in H. discriminate H.
Qed.

(** ** Requests per call *)

Lemma requests_distinct_verbs (r1 r2 : Request) :
  req_verb r1 <> req_verb r2 -> NoDup [r1; r2].
Proof.
  intros Hne. apply NoDup_cons. split; [|apply NoDup_singleton].
  intros Hin. apply list_elem_of_singleton in Hin. congruence.
Qed.

(** C4, as the code has it.  Every method issues exactly one request per
    call, except [updateReviewStatus], which issues two when its lookup
    resolves and only the lookup when it is rejected, and
    [checkRepositoryPermissions], which issues one or two; no call issues the
    same request twice. *)
Theorem requests_per_call {Server : Type}
    (respond : Server -> Request -> Settled Response * Server)
    (this : BitbucketClient) (c : Method) (s : Server) :
  let sent := requests (run respond (invoke this c) s) in
  NoDup sent /\
  match c with
  | UpdateReviewStatus _ =>
      length sent =
      match (respond s propertiesRequest).1 with
      | Resolved _ => 2%nat
      | Rejected _ => 1%nat
      end
  | CheckRepositoryPermissions _ => (1 <= length sent <= 2)%nat
  | _ => length sent = 1%nat
  end.
Proof.
  unfold requests. cbv zeta.
  destruct (awaitsOnce c) eqn:Honce.
  - destruct (run_once respond this c Honce) as (r0 & f & Hrun). rewrite Hrun. simpl.
    split; [apply NoDup_singleton|].
    destruct c; try discriminate Honce; reflexivity.
  - destruct c; try discriminate Honce.
    + cbn [invoke]. rewrite run_data, run_updateReviewStatus.
      destruct (respond s propertiesRequest) as [[lookup|e0] s1]; cbv zeta.
      * destruct (respond s1 _) as [[x|e1] s2]; simpl;
          (split; [apply requests_distinct_verbs; discriminate | reflexivity]).
      * simpl. split; [apply NoDup_singleton | reflexivity].
    + rewrite run_permissions, run_checkRepositoryPermissions.
      destruct (respond s (readProbe params)) as [[x|e0] s1].
      * destruct (respond s1 (writeProbe params)) as [[y|e1] s2]; simpl;
          (split; [apply requests_distinct_verbs; discriminate | lia]).
      * simpl. split; [apply NoDup_singleton | lia].
Qed.

(** C4, as the spec has it, fails: against a server that is down
    [updateReviewStatus] issues its lookup and nothing else. *)
Lemma review_update_skipped_when_lookup_fails :
  length (requests (run down (invoke exampleClient (UpdateReviewStatus exampleReview)) ()))
  <> 2%nat.
Proof. vm_compute. discriminate. Qed.

(** ** Content negotiation *)

(** The one exchange of a method that awaits once. *)
Ltac the_request Hin :=
  simpl in Hin;
  match type of Hin with
  | context [?respond ?s ?R] =>
      match type of R with
      | Request => destruct (respond s R) as [[?|?] ?]; simpl in Hin
      end
  end;
  apply list_elem_of_singleton in Hin; injection Hin as -> _.

Section Headers.

Context {Server : Type}.
Variable respond : Server -> Request -> Settled Response * Server.

Lemma accept_header_cases (this : BitbucketClient) (c : Method) (s : Server)
    (r : Request) (o : Settled Response) :
  (r, o) ∈ trace (run respond (invoke this c) s) ->
  match c with
  | GetRawContent _ => header "Accept" r = Some "text/plain"
  | GetPullRequestDiff params =>
      header "Accept" r =
      Some (if String.eqb (default "text" (GetPullRequestDiffParams.format params)) "text"
            then "text/plain" else "application/json")
  | _ => cfg_headers (req_config r) = None
  end.
Proof.
  intros Hin.
  destruct c as [p|p|p|p|p|p|p|p|p|p|p|p|p|p|p|p|p|p|p|p|p|p].
  16: { cbn [invoke] in Hin. rewrite run_data, run_updateReviewStatus in Hin.
        destruct (respond s propertiesRequest) as [[lookup|e0] s1]; cbv zeta in Hin.
        - destruct (respond s1 _) as [[x|e1] s2]; simpl in Hin;
            set_unfold in Hin; destruct Hin as [Hin|[Hin|Hin]];
            try contradiction; injection Hin as -> _; reflexivity.
        - simpl in Hin. apply list_elem_of_singleton in Hin.
          injection Hin as -> _. reflexivity. }
  21: { rewrite run_permissions, run_checkRepositoryPermissions in Hin.
        destruct (respond s (readProbe p)) as [[x|e0] s1].
        - destruct (respond s1 (writeProbe p)) as [[y|e1] s2]; simpl in Hin;
            set_unfold in Hin; destruct Hin as [Hin|[Hin|Hin]];
            try contradiction; injection Hin as -> _; reflexivity.
        - simpl in Hin. apply list_elem_of_singleton in Hin.
          injection Hin as -> _. reflexivity. }
  all: try destruct p; the_request Hin; reflexivity.
Qed.

End Headers.

(** The [Accept] that the request config of a method holds. *)
Lemma accept_option_of_request {Server : Type}
    (respond : Server -> Request -> Settled Response * Server)
    (this : BitbucketClient) (c : Method) (s : Server)
    (r : Request) (o : Settled Response) :
  (r, o) ∈ trace (run respond (invoke this c) s) ->
  (header "Accept" r = Some "text/plain" <->
   (exists params, c = GetRawContent params) \/
   (exists params,
      c = GetPullRequestDiff params /\
      (GetPullRequestDiffParams.format params = Some "text" \/
       GetPullRequestDiffParams.format params = None))) /\
  (forall params,
     c = GetPullRequestDiff params ->
     GetPullRequestDiffParams.format params = Some "json" ->
     header "Accept" r = Some "application/json") /\
  ((forall params, c <> GetRawContent params) ->
   (forall params, c <> GetPullRequestDiff params) ->
   cfg_headers (req_config r) = None).
Proof.
  intros Hin. pose proof (accept_header_cases respond this c s r o Hin) as H.
  destruct c as [p|p|p|p|p|p|p|p|p|p|p|p|p|p|p|p|p|p|p|p|p|p].
  12: { split; [|split].
        - rewrite H. split.
          + intros Heq. right. exists p. split; [reflexivity|].
            destruct (GetPullRequestDiffParams.format p) as [f|]; [|auto].
            simpl in Heq. destruct (String.eqb_spec f "text"); [subst; auto | discriminate].
          + intros [[q Hq]|(q & Hq & Hf)]; [discriminate|].
            injection Hq as <-. destruct Hf as [-> | ->]; reflexivity.
        - intros q [= <-] Hf. rewrite H, Hf. reflexivity.
        - intros _ Hn. destruct (Hn p eq_refl). }
  20: { split; [|split].
        - split; [eauto | intros _; exact H].
        - discriminate.
        - intros Hn. destruct (Hn p eq_refl). }
  all: (split; [|split];
        [ unfold header; rewrite H; simpl; split;
          [discriminate | intros [[q Hq]|(q & Hq & _)]; discriminate]
        | discriminate
        | intros _ _; exact H ]).
Qed.

(** C6, as the code has it.  [getRawContent] issues its request with
    [Accept: text/plain]; [getPullRequestDiff] issues its request with
    [Accept: text/plain] for format [text] or no format and with
    [Accept: application/json] for format [json]; both override the instance
    defaults.  Among the request configs, [Accept] is [text/plain] exactly for
    these, and no other method passes a [headers] option: its requests carry
    the [Accept] of the instance defaults, which is the caller's when
    [axiosConfig.headers] gives one. *)
Theorem accept_text_plain {Server : Type}
    (respond : Server -> Request -> Settled Response * Server) (s : Server) :
  (forall this params,
     exists r o,
       trace (run respond (invoke this (GetRawContent params)) s) = [(r, o)] /\
       header "Accept" r = Some "text/plain" /\
       effectiveHeader this "Accept" r = Some "text/plain") /\
  (forall this params,
     exists r o accept,
       trace (run respond (invoke this (GetPullRequestDiff params)) s) = [(r, o)] /\
       header "Accept" r = Some accept /\
       effectiveHeader this "Accept" r = Some accept /\
       (GetPullRequestDiffParams.format params = Some "text" \/
        GetPullRequestDiffParams.format params = None -> accept = "text/plain") /\
       (GetPullRequestDiffParams.format params = Some "json" ->
        accept = "application/json") /\
       (accept = "text/plain" ->
        GetPullRequestDiffParams.format params = Some "text" \/
        GetPullRequestDiffParams.format params = None)) /\
  (forall this c r o,
     (r, o) ∈ trace (run respond (invoke this c) s) ->
     (header "Accept" r = Some "text/plain" <->
      (exists params, c = GetRawContent params) \/
      (exists params,
         c = GetPullRequestDiff params /\
         (GetPullRequestDiffParams.format params = Some "text" \/
          GetPullRequestDiffParams.format params = None))) /\
     (forall params,
        c = GetPullRequestDiff params ->
        GetPullRequestDiffParams.format params = Some "json" ->
        header "Accept" r = Some "application/json") /\
     ((forall params, c <> GetRawContent params) ->
      (forall params, c <> GetPullRequestDiff params) ->
      cfg_headers (req_config r) = None)) /\
  (forall config c r o v,
     (r, o) ∈ trace (run respond (invoke (newClient config) c) s) ->
     (forall params, c <> GetRawContent params) ->
     (forall params, c <> GetPullRequestDiff params) ->
     callerHeader config "Accept" = Some v ->
     effectiveHeader (newClient config) "Accept" r = Some v).
Proof.
  split; [|split; [|split]].
  - intros this [pk rs path at_]. cbn [invoke]. rewrite run_data.
    unfold getRawContent, get. cbv zeta. rewrite run_single.
    eexists _, _. repeat split.
  - intros this [pk rs id path sinceId untilId contextLines whitespace format].
    cbn [invoke]. rewrite run_data.
    unfold getPullRequestDiff, get. cbv zeta. rewrite run_single.
    eexists _, _, _. split; [reflexivity|].
    split; [unfold header; cbn [req_config cfg_headers mbind option_bind];
            apply lookup_singleton_eq|].
    split; [unfold effectiveHeader, header;
            cbn [req_config cfg_headers mbind option_bind];
            rewrite lookup_singleton_eq; reflexivity|].
    cbn [GetPullRequestDiffParams.format].
    split; [|split].
    + intros [-> | ->]; reflexivity.
    + intros ->. reflexivity.
    + destruct format as [f|]; [|auto]. simpl.
      destruct (String.eqb_spec f "text") as [->|_]; [auto|].
      intros H. discriminate H.
  - intros this c r o. apply accept_option_of_request.
  - intros config c r o v Hin Hraw Hdiff Hcaller.
    destruct (accept_option_of_request respond _ c s r o Hin) as (_ & _ & Hnone).
    specialize (Hnone Hraw Hdiff).
    unfold effectiveHeader, header. rewrite Hnone. cbn [mbind option_bind].
    unfold callerHeader in Hcaller.
    destruct config as [token baseUrl [[b h o']|]]; [|discriminate Hcaller].
    destruct h as [h|]; [|discriminate Hcaller].
    cbn in Hcaller |- *.
    rewrite !lookup_insert_ne by discriminate. exact Hcaller.
Qed.

Lemma accept_text_plain_witness :
  (exists r o accept,
     trace (run down (invoke exampleClient (GetPullRequestDiff (exampleDiff (Some "json"))))
              ()) = [(r, o)] /\
     header "Accept" r = Some accept /\ accept = "application/json") /\
  (exists r o accept,
     trace (run down (invoke exampleClient (GetPullRequestDiff (exampleDiff None))) ()) =
       [(r, o)] /\
     header "Accept" r = Some accept /\ accept = "text/plain").
Proof.
  split.
  - destruct (proj1 (proj2 (accept_text_plain down ())) exampleClient
                (exampleDiff (Some "json")))
      as (r & o & accept & Htrace & Hheader & _ & _ & Hjson & _).
    exists r, o, accept. split; [exact Htrace|]. split; [exact Hheader|].
    apply Hjson. reflexivity.
  - destruct (proj1 (proj2 (accept_text_plain down ())) exampleClient (exampleDiff None))
      as (r & o & accept & Htrace & Hheader & _ & Htext & _).
    exists r, o, accept. split; [exact Htrace|]. split; [exact Hheader|].
    apply Htext. right. reflexivity.
Defined.

(** C6, as the spec has it, fails: with [Accept: text/plain] among the
    caller's [axiosConfig.headers], the request of [getUserProfile] carries
    it. *)
Lemma caller_accept_reaches_other_methods :
  (exampleProfileRequest, Rejected networkError)
    ∈ trace (run down (invoke (newClient exampleAcceptConfig)
                         (GetUserProfile exampleProfile)) ()) /\
  effectiveHeader (newClient exampleAcceptConfig) "Accept" exampleProfileRequest =
    Some "text/plain".
Proof. split; [constructor | reflexivity]. Qed.

(** ** Base paths *)

Lemma length_append (a b : string) :
  String.length (a +:+ b) = (String.length a + String.length b)%nat.
Proof.
  induction a as [|c a IH]; [reflexivity|].
  change (S (String.length (a +:+ b)) = S (String.length a + String.length b)).
  rewrite IH. reflexivity.
Qed.

(** Replacing an occurrence trades the length of the pattern for the length
    of the replacement. *)
Lemma replace_length (s pat rep : string) :
  includes s pat = true ->
  (String.length (replace s pat rep) + String.length pat =
   String.length s + String.length rep)%nat.
Proof.
  induction s as [|c s IH]; simpl; unfold startsWith.
  - destruct (stripPrefix pat "") as [rest|] eqn:E; [|discriminate].
    intros _. apply stripPrefix_Some, (f_equal String.length) in E.
    rewrite length_append in *. simpl in E. lia.
  - destruct (stripPrefix pat (String c s)) as [rest|] eqn:E.
    + intros _. apply stripPrefix_Some, (f_equal String.length) in E.
      rewrite length_append in *. simpl in E. lia.
    + simpl. intros H. specialize (IH H). lia.
Qed.

Lemma plugin_base_differs (b : string) :
  replace (b +:+ "/rest/api/latest") "/rest/api/latest" "/rest" <> b +:+ "/rest/api/latest".
Proof.
  intros Heq.
  assert (Hin : includes (b +:+ "/rest/api/latest") "/rest/api/latest" = true).
  { apply includes_spec. exists b, "". reflexivity. }
  pose proof (replace_length _ _ "/rest" Hin) as Hlen.
  rewrite Heq in Hlen. simpl in Hlen. lia.
Qed.

Section Bases.

Context {Server : Type}.
Variable respond : Server -> Request -> Settled Response * Server.

(** Which base url and which endpoint each request of a call has. *)
Lemma base_cases (this : BitbucketClient) (c : Method) (s : Server)
    (r : Request) (o : Settled Response) :
  (r, o) ∈ trace (run respond (invoke this c) s) ->
  match c with
  | AddPullRequestCommentReaction _ | RemovePullRequestCommentReaction _ =>
      cfg_baseURL (req_config r) = pluginBase this /\
      shape (req_url r) = reactionEndpoint
  | GetRequiredReviewers _ =>
      cfg_baseURL (req_config r) = pluginBase this /\
      shape (req_url r) = reviewersEndpoint
  | _ =>
      cfg_baseURL (req_config r) = None /\
      isPluginEndpoint (shape (req_url r)) = false
  end.
Proof.
  intros Hin.
  destruct c as [p|p|p|p|p|p|p|p|p|p|p|p|p|p|p|p|p|p|p|p|p|p].
  16: { cbn [invoke] in Hin. rewrite run_data, run_updateReviewStatus in Hin.
        destruct (respond s propertiesRequest) as [[lookup|e0] s1]; cbv zeta in Hin.
        - destruct (respond s1 _) as [[x|e1] s2]; simpl in Hin;
            set_unfold in Hin; destruct Hin as [Hin|[Hin|Hin]];
            try contradiction; injection Hin as -> _; destruct p; split; reflexivity.
        - simpl in Hin. apply list_elem_of_singleton in Hin.
          injection Hin as -> _. split; reflexivity. }
  21: { rewrite run_permissions, run_checkRepositoryPermissions in Hin.
        destruct (respond s (readProbe p)) as [[x|e0] s1].
        - destruct (respond s1 (writeProbe p)) as [[y|e1] s2]; simpl in Hin;
            set_unfold in Hin; destruct Hin as [Hin|[Hin|Hin]];
            try contradiction; injection Hin as -> _; split; reflexivity.
        - simpl in Hin. apply list_elem_of_singleton in Hin.
          injection Hin as -> _. split; reflexivity. }
  all: try destruct p; the_request Hin; split; reflexivity.
Qed.

End Bases.

(** A prefix test on a concatenation: [p] starts [b], or [b] starts [p] and
    the rest of [p] starts [q]. *)
Lemma stripPrefix_append (p b q : string) :
  stripPrefix p (b +:+ q) =
  match stripPrefix p b with
  | Some rest => Some (rest +:+ q)
  | None =>
      match stripPrefix b p with
      | Some p' => stripPrefix p' q
      | None => None
      end
  end.
Proof.
  revert b. induction p as [|a p IH]; intros b; [reflexivity|].
  destruct b as [|c b]; [reflexivity|].
  change (String c b +:+ q) with (String c (b +:+ q)). simpl.
  rewrite (Ascii.eqb_sym c a).
  destruct (Ascii.eqb a c); [apply IH|reflexivity].
Qed.

Lemma tails_split (s b p' : string) : s = b +:+ p' -> p' ∈ tails s.
Proof.
  revert s. induction b as [|c b IH]; intros s ->.
  - change ("" +:+ p') with p'. destruct p'; simpl; left.
  - change (String c b +:+ p') with (String c (b +:+ p')). simpl. right.
    apply IH. reflexivity.
Qed.

(** [/rest/api/latest] overlaps itself nowhere: none of its proper, non-empty
    tails starts it. *)
Lemma pattern_has_no_border (p' : string) :
  p' ∈ tails "/rest/api/latest" ->
  p' = "/rest/api/latest" \/ p' = "" \/ stripPrefix p' "/rest/api/latest" = None.
Proof.
  intros Hin. simpl in Hin. set_unfold in Hin.
  repeat (destruct Hin as [->|Hin]; [auto|]). contradiction.
Qed.

Lemma replace_unfold (s pat rep : string) :
  replace s pat rep =
  match stripPrefix pat s with
  | Some rest => rep +:+ rest
  | None =>
      match s with
      | EmptyString => EmptyString
      | String c s' => String c (replace s' pat rep)
      end
  end.
Proof. destruct s; reflexivity. Qed.

(** For a base url that does not itself hold [/rest/api/latest], the plugin
    base is the base url followed by [/rest]. *)
Lemma plugin_base_clean (b : string) :
  includes b "/rest/api/latest" = false ->
  replace (b +:+ "/rest/api/latest") "/rest/api/latest" "/rest" = b +:+ "/rest".
Proof.
  induction b as [|c b IH]; [reflexivity|].
  intros H.
  change (startsWith (String c b) "/rest/api/latest"
          || includes b "/rest/api/latest" = false) in H.
  apply orb_false_iff in H as [Hhead Htail].
  rewrite replace_unfold, stripPrefix_append.
  change (String c b +:+ "/rest/api/latest") with (String c (b +:+ "/rest/api/latest")).
  unfold startsWith in Hhead.
  destruct (stripPrefix "/rest/api/latest" (String c b)) as [rest|] eqn:Hstrip;
    [discriminate|].
  destruct (stripPrefix (String c b) "/rest/api/latest") as [p'|] eqn:E.
  - apply stripPrefix_Some in E.
    destruct (pattern_has_no_border p' (tails_split _ _ _ E)) as [->|[->|Hnone]].
    + apply (f_equal String.length) in E. rewrite length_append in E.
      simpl in E. lia.
    + rewrite append_empty_r in E. rewrite <- E in Hstrip. discriminate Hstrip.
    + rewrite Hnone, (IH Htail). reflexivity.
  - rewrite (IH Htail). reflexivity.
Qed.

Lemma isPluginEndpoint_spec (e : Endpoint) :
  isPluginEndpoint e = true <-> e = reactionEndpoint \/ e = reviewersEndpoint.
Proof.
  unfold isPluginEndpoint. rewrite orb_true_iff, !bool_decide_eq_true. reflexivity.
Qed.

(** C5. Exactly two endpoints, the comment reactions and the default
    reviewers, are requested against the plugin base path (the instance base
    url with [/rest/api/latest] replaced by [/rest]); every other request goes
    to the primary base path (base url followed by [/rest/api/latest]).  The
    two endpoints differ, both are addressed (the reactions by a PUT and by a
    DELETE, the reviewers by a GET), the two base paths differ, and for a base url that does not itself hold
    [/rest/api/latest] the plugin base path is the base url followed by
    [/rest]. *)
Theorem two_plugin_endpoints {Server : Type}
    (respond : Server -> Request -> Settled Response * Server)
    (config : BitbucketClientConfig) (s : Server) :
  let this := newClient config in
  let primary := baseUrl config +:+ "/rest/api/latest" in
  let plugin := replace primary "/rest/api/latest" "/rest" in
  (forall c r o,
     (r, o) ∈ trace (run respond (invoke this c) s) ->
     if isPluginEndpoint (shape (req_url r))
     then effectiveBase this r = Some plugin
     else effectiveBase this r = Some primary) /\
  (forall e, isPluginEndpoint e = true <-> e = reactionEndpoint \/ e = reviewersEndpoint) /\
  reactionEndpoint <> reviewersEndpoint /\
  plugin <> primary /\
  (includes (baseUrl config) "/rest/api/latest" = false ->
   plugin = baseUrl config +:+ "/rest") /\
  (forall params,
     (fun r => (req_verb r, shape (req_url r))) <$>
       requests (run respond (invoke this (AddPullRequestCommentReaction params)) s) =
     [(PUT, reactionEndpoint)]) /\
  (forall params,
     (fun r => (req_verb r, shape (req_url r))) <$>
       requests (run respond (invoke this (RemovePullRequestCommentReaction params)) s) =
     [(DELETE, reactionEndpoint)]) /\
  (forall params,
     (fun r => (req_verb r, shape (req_url r))) <$>
       requests (run respond (invoke this (GetRequiredReviewers params)) s) =
     [(GET, reviewersEndpoint)]).
Proof.
  intros this primary plugin.
  split; [|split; [|split; [|split; [|split; [|split; [|split]]]]]].
  - intros c r o Hin.
    pose proof (base_cases respond this c s r o Hin) as H.
    unfold effectiveBase.
    destruct c; destruct H as [Hbase Hshape]; rewrite Hbase;
      try (rewrite Hshape; reflexivity).
    all: rewrite (proj2 (isPluginEndpoint_spec _)) by (rewrite Hshape; auto);
      reflexivity.
  - apply isPluginEndpoint_spec.
  - discriminate.
  - apply plugin_base_differs.
  - apply plugin_base_clean.
  - intros [pk rs id cid emo]. unfold requests. simpl.
    destruct (respond s _) as [[x|e] s']; reflexivity.
  - intros [pk rs id cid emo]. unfold requests. simpl.
    destruct (respond s _) as [[x|e] s']; reflexivity.
  - intros [pk rs rid sb tb]. unfold requests. simpl.
    destruct (respond s _) as [[x|e] s']; reflexivity.
Qed.

Lemma two_plugin_endpoints_witness :
  effectiveBase exampleClient exampleReactionRequest =
    Some "https://bitbucket.example.com/rest" /\
  effectiveBase exampleClient exampleRawRequest =
    Some "https://bitbucket.example.com/rest/api/latest".
Proof.
  split.
  - exact (proj1 (two_plugin_endpoints down
                    (mkClientConfig "secret" "https://bitbucket.example.com" None) ())
             (AddPullRequestCommentReaction exampleReaction)
             exampleReactionRequest (Rejected networkError) ltac:(constructor)).
  - exact (proj1 (two_plugin_endpoints down
                    (mkClientConfig "secret" "https://bitbucket.example.com" None) ())
             (GetRawContent exampleRaw)
             exampleRawRequest (Rejected networkError) ltac:(constructor)).
Defined.


(** * Further properties of the methods *)

(** ** Branch references *)

(** X1. [toRefId] is idempotent and its result is always fully qualified:
    applying it to a reference it produced changes nothing, and every result
    starts with [refs/]. *)
Theorem toRefId_idempotent (branch : string) :
  toRefId (toRefId branch) = toRefId branch /\ hasPrefix (toRefId branch) "refs/".
Proof.
  unfold toRefId. destruct (startsWith branch "refs/") eqn:E.
  - rewrite E. split; [reflexivity | apply startsWith_spec, E].
  - split; [reflexivity|]. exists ("heads/" +:+ branch). reflexivity.
Qed.

(** ** Request bodies *)

(** X2. [createPullRequest] posts to the pull requests of the target
    repository.  Its body always has [title]; [description] only when it is a
    non-empty string; [reviewers] only for a non-empty list, with one
    [{ user: { name } }] entry per username, in order; [draft] whenever it is
    defined, so [draft: false] is sent. *)
Theorem pull_request_optional_fields {Server : Type}
    (respond : Server -> Request -> Settled Response * Server) (s : Server)
    (params : CreatePullRequestParams.t) :
  exists r o body,
    trace (run respond (createPullRequest params) s) = [(r, o)] /\
    req_verb r = POST /\
    render (req_url r) =
      "/projects/" +:+ CreatePullRequestParams.projectKey params
      +:+ "/repos/" +:+ CreatePullRequestParams.repositorySlug params
      +:+ "/pull-requests" /\
    req_data r = Some body /\
    getProp "title" body = Some (JStr (CreatePullRequestParams.title params)) /\
    getProp "description" body = sentStr (CreatePullRequestParams.description params) /\
    getProp "reviewers" body =
      match CreatePullRequestParams.reviewers params with
      | Some (u :: l) => Some (JArr (reviewerEntry <$> u :: l))
      | _ => None
      end /\
    getProp "draft" body = JBool <$> CreatePullRequestParams.draft params.
Proof.
  destruct params as [pk rs title desc fb tb frs fpk revs draft].
  unfold createPullRequest, post. rewrite run_single.
  eexists _, _, _. split; [reflexivity|]. split; [reflexivity|].
  split; [reflexivity|]. split; [reflexivity|].
  destruct desc as [d|]; [destruct (String.eqb_spec d "") as [->|Hd]|];
    simpl; try rewrite (proj2 (String.eqb_neq d "") Hd);
    destruct (truthyStr frs); destruct revs as [[|u l]|]; destruct draft;
    repeat split.
Qed.

(** Case analysis on the truthiness tests left in the goal. *)
Ltac truthiness :=
  simpl; cbn [truthyStr truthyNum sentStr sentNum isDefined];
  repeat match goal with
         | |- context [String.eqb ?d ""] => destruct (String.eqb d "")
         | |- context [Z.eqb ?n 0] => destruct (Z.eqb n 0)
         end;
  cbn [negb].

(** X3. The [fromRef] of [createPullRequest] names a repository only when
    [fromRepositorySlug] is a non-empty string; its project key is then
    [fromProjectKey], or [projectKey] when [fromProjectKey] is missing or
    empty.  Without a slug [fromProjectKey] is dropped.  [toRef] holds the
    reference identifier and nothing else. *)
Theorem pull_request_cross_repository {Server : Type}
    (respond : Server -> Request -> Settled Response * Server) (s : Server)
    (params : CreatePullRequestParams.t) :
  exists r o body fromRef,
    trace (run respond (createPullRequest params) s) = [(r, o)] /\
    req_data r = Some body /\
    getProp "fromRef" body = Some fromRef /\
    getProp "repository" fromRef =
      match sentStr (CreatePullRequestParams.fromRepositorySlug params) with
      | Some slug =>
          Some (JObj [("slug", slug);
                      ("project",
                       JObj [("key",
                              JStr (orElse (CreatePullRequestParams.fromProjectKey params)
                                           (CreatePullRequestParams.projectKey params)))])])
      | None => None
      end /\
    getProp "toRef" body =
      Some (JObj [("id", JStr (toRefId (CreatePullRequestParams.toBranch params)))]).
Proof.
  destruct params as [pk rs title desc fb tb frs fpk revs draft].
  unfold createPullRequest, post, createPullRequestBody. rewrite run_single.
  destruct desc as [d|], frs as [f|]; truthiness;
    eexists _, _, _, _; (split; [reflexivity|]); (split; [reflexivity|]);
    simpl; (split; [reflexivity|]); split; reflexivity.
Qed.

(** X4. [addPullRequestComment] posts [{ text }], with [parent] only for a
    non-zero [parentId] and [anchor] only for a non-empty [path]: without a
    path, [line], [lineType] and [fileType] are dropped.  An anchor always has
    [diffType: 'EFFECTIVE'], [line] whenever it is defined (line 0 too), and
    [lineType] and [fileType] only when they are non-empty. *)
Theorem comment_anchor_needs_path {Server : Type}
    (respond : Server -> Request -> Settled Response * Server) (s : Server)
    (params : AddPullRequestCommentParams.t) :
  exists r o body,
    trace (run respond (addPullRequestComment params) s) = [(r, o)] /\
    req_verb r = POST /\
    req_data r = Some body /\
    getProp "text" body = Some (JStr (AddPullRequestCommentParams.text params)) /\
    getProp "parent" body =
      (fun id => JObj [("id", id)]) <$> sentNum (AddPullRequestCommentParams.parentId params) /\
    match sentStr (AddPullRequestCommentParams.path params) with
    | None => getProp "anchor" body = None
    | Some path =>
        exists anchor,
          getProp "anchor" body = Some anchor /\
          getProp "path" anchor = Some path /\
          getProp "diffType" anchor = Some (JStr "EFFECTIVE") /\
          getProp "line" anchor = JNum <$> AddPullRequestCommentParams.line params /\
          getProp "lineType" anchor = sentStr (AddPullRequestCommentParams.lineType params) /\
          getProp "fileType" anchor = sentStr (AddPullRequestCommentParams.fileType params)
    end.
Proof.
  destruct params as [pk rs id text parentId path line lineType fileType].
  unfold addPullRequestComment, post, addCommentBody. rewrite run_single.
  destruct parentId as [n|], path as [pa|], line as [l|], lineType as [lt|],
    fileType as [ft|]; truthiness;
    eexists _, _, _; (split; [reflexivity|]); (split; [reflexivity|]);
    (split; [reflexivity|]); simpl;
    repeat first [ reflexivity | split | eexists ].
Qed.

(** ** Query parameters *)

(** Lookups in a query built by singletons and guarded insertions. *)
Ltac query_lookup :=
  unfold setIf; truthiness;
  rewrite ?lookup_insert, ?lookup_singleton, ?lookup_empty;
  repeat case_decide; subst; try reflexivity; congruence.

(** X5. [getPullRequestChanges] sends [limit], and [getPullRequestFileDiff]
    sends [contextLines], only when the number is defined and not zero: a
    [limit] or [contextLines] of 0 is dropped like a missing one, and the
    query holds no other key. *)
Theorem zero_option_dropped {Server : Type}
    (respond : Server -> Request -> Settled Response * Server) (s : Server) :
  (forall params : GetPullRequestChangesParams.t,
     exists r o q,
       trace (run respond (getPullRequestChanges params) s) = [(r, o)] /\
       cfg_params (req_config r) = Some q /\
       forall k : string,
         q !! k = if decide (k = "limit")
                  then sentNum (GetPullRequestChangesParams.limit params)
                  else None) /\
  (forall params : GetPullRequestFileDiffParams.t,
     exists r o q,
       trace (run respond (getPullRequestFileDiff params) s) = [(r, o)] /\
       cfg_params (req_config r) = Some q /\
       forall k : string,
         q !! k = if decide (k = "contextLines")
                  then sentNum (GetPullRequestFileDiffParams.contextLines params)
                  else None).
Proof.
  split.
  - intros [pk rs id limit]. unfold getPullRequestChanges, get. rewrite run_single.
    eexists _, _, _. split; [reflexivity|]. split; [reflexivity|].
    intros k. destruct limit as [n|]; query_lookup.
  - intros [pk rs id path contextLines].
    unfold getPullRequestFileDiff, get. rewrite run_single.
    eexists _, _, _. split; [reflexivity|]. split; [reflexivity|].
    intros k. destruct contextLines as [n|]; query_lookup.
Qed.

(** X6. [getPullRequestDiff] gets [.../diff/<path>], or [.../diff/] when
    [path] is missing or empty.  Its query holds [sinceId], [untilId] and
    [whitespace] only when they are non-empty strings, [contextLines] whenever
    it is defined (a [contextLines] of 0 is sent, unlike in
    [getPullRequestFileDiff]), and no other key. *)
Theorem diff_query {Server : Type}
    (respond : Server -> Request -> Settled Response * Server) (s : Server)
    (params : GetPullRequestDiffParams.t) :
  exists r o q,
    trace (run respond (getPullRequestDiff params) s) = [(r, o)] /\
    req_verb r = GET /\
    render (req_url r) =
      "/projects/" +:+ GetPullRequestDiffParams.projectKey params
      +:+ "/repos/" +:+ GetPullRequestDiffParams.repositorySlug params
      +:+ "/pull-requests/" +:+ pretty (GetPullRequestDiffParams.pullRequestId params)
      +:+ "/diff/" +:+ default "" (GetPullRequestDiffParams.path params) /\
    cfg_params (req_config r) = Some q /\
    forall k : string,
      q !! k =
      if decide (k = "sinceId") then sentStr (GetPullRequestDiffParams.sinceId params)
      else if decide (k = "untilId") then sentStr (GetPullRequestDiffParams.untilId params)
      else if decide (k = "contextLines")
           then JNum <$> GetPullRequestDiffParams.contextLines params
      else if decide (k = "whitespace")
           then sentStr (GetPullRequestDiffParams.whitespace params)
      else None.
Proof.
  destruct params as [pk rs id path sinceId untilId contextLines whitespace format].
  unfold getPullRequestDiff, get. cbv zeta. rewrite run_single.
  eexists _, _, _. split; [reflexivity|]. split; [reflexivity|].
  split; [simpl; rewrite append_empty_r, orElse_empty; reflexivity|].
  split; [reflexivity|].
  intros k.
  destruct sinceId as [a|], untilId as [b|], contextLines as [n|], whitespace as [w|];
    query_lookup.
Qed.

(** X7. [browse] gets [.../browse/<path>], or [.../browse/] when [path] is
    missing or empty; its query holds [at] only when it is a non-empty string
    and [limit] and [start] whenever they are defined, 0 included.
    [getRawContent] gets [.../raw/<path>] with [at] under the same guard and
    nothing else. *)
Theorem browse_and_raw_queries {Server : Type}
    (respond : Server -> Request -> Settled Response * Server) (s : Server) :
  (forall params : BrowseParams.t,
     exists r o q,
       trace (run respond (browse params) s) = [(r, o)] /\
       render (req_url r) =
         "/projects/" +:+ BrowseParams.projectKey params
         +:+ "/repos/" +:+ BrowseParams.repositorySlug params
         +:+ "/browse/" +:+ default "" (BrowseParams.path params) /\
       cfg_params (req_config r) = Some q /\
       forall k : string,
         q !! k =
         if decide (k = "at") then sentStr (BrowseParams.at_ params)
         else if decide (k = "limit") then JNum <$> BrowseParams.limit params
         else if decide (k = "start") then JNum <$> BrowseParams.start params
         else None) /\
  (forall params : GetRawContentParams.t,
     exists r o q,
       trace (run respond (getRawContent params) s) = [(r, o)] /\
       render (req_url r) =
         "/projects/" +:+ GetRawContentParams.projectKey params
         +:+ "/repos/" +:+ GetRawContentParams.repositorySlug params
         +:+ "/raw/" +:+ GetRawContentParams.path params /\
       cfg_params (req_config r) = Some q /\
       forall k : string,
         q !! k = if decide (k = "at") then sentStr (GetRawContentParams.at_ params)
                  else None).
Proof.
  split.
  - intros [pk rs path at_ limit start].
    unfold browse, get. cbv zeta. rewrite run_single.
    eexists _, _, _. split; [reflexivity|].
    split; [simpl; rewrite append_empty_r, orElse_empty; reflexivity|].
    split; [reflexivity|].
    intros k. destruct at_ as [a|], limit as [n|], start as [m|]; query_lookup.
  - intros [pk rs path at_].
    unfold getRawContent, get. cbv zeta. rewrite run_single.
    eexists _, _, _. split; [reflexivity|].
    split; [simpl; rewrite append_empty_r; reflexivity|].
    split; [reflexivity|].
    intros k. destruct at_ as [a|]; query_lookup.
Qed.

(** X8. [getAllUsers] gets [/users] with [filter] in the query only when it
    is a non-empty string: a call without params, without a filter or with an
    empty filter sends the same request with an empty query. *)
Theorem users_filter_optional {Server : Type}
    (respond : Server -> Request -> Settled Response * Server) (s : Server) :
  (forall params : option GetAllUsersParams.t,
     exists r o q,
       trace (run respond (getAllUsers params) s) = [(r, o)] /\
       req_verb r = GET /\
       render (req_url r) = "/users" /\
       cfg_params (req_config r) = Some q /\
       forall k : string,
         q !! k = if decide (k = "filter")
                  then sentStr (params ≫= GetAllUsersParams.filter)
                  else None) /\
  run respond (getAllUsers (Some (GetAllUsersParams.mk None))) s =
    run respond (getAllUsers None) s /\
  run respond (getAllUsers (Some (GetAllUsersParams.mk (Some "")))) s =
    run respond (getAllUsers None) s.
Proof.
  split; [|split]; try reflexivity.
  intros params. unfold getAllUsers, get. cbv zeta. rewrite run_single.
  eexists _, _, _. split; [reflexivity|]. split; [reflexivity|].
  split; [reflexivity|]. split; [reflexivity|].
  intros k. destruct params as [[[f|]]|]; query_lookup.
Qed.

(** X9. [deletePullRequestComment] sends a DELETE without body to
    [.../comments/<commentId>] with the query [{ version }], a version of 0
    included.  [getRequiredReviewers] sends [repositoryId] both as
    [sourceRepoId] and as [targetRepoId]: it always asks for the reviewers of
    a pull request inside one repository. *)
Theorem version_and_repository_ids {Server : Type}
    (respond : Server -> Request -> Settled Response * Server) (s : Server) :
  (forall params : DeletePullRequestCommentParams.t,
     exists r o q,
       trace (run respond (deletePullRequestComment params) s) = [(r, o)] /\
       req_verb r = DELETE /\
       req_data r = None /\
       render (req_url r) =
         "/projects/" +:+ DeletePullRequestCommentParams.projectKey params
         +:+ "/repos/" +:+ DeletePullRequestCommentParams.repositorySlug params
         +:+ "/pull-requests/"
         +:+ pretty (DeletePullRequestCommentParams.pullRequestId params)
         +:+ "/comments/" +:+ pretty (DeletePullRequestCommentParams.commentId params) /\
       cfg_params (req_config r) = Some q /\
       forall k : string,
         q !! k = if decide (k = "version")
                  then Some (JNum (DeletePullRequestCommentParams.version params))
                  else None) /\
  (forall (this : BitbucketClient) (params : GetRequiredReviewersParams.t),
     exists r o,
       trace (run respond (getRequiredReviewers this params) s) = [(r, o)] /\
       queryParam "sourceRepoId" r =
         Some (JNum (GetRequiredReviewersParams.repositoryId params)) /\
       queryParam "targetRepoId" r =
         Some (JNum (GetRequiredReviewersParams.repositoryId params))).
Proof.
  split.
  - intros [pk rs id cid version].
    unfold deletePullRequestComment, delete. rewrite run_single.
    eexists _, _, _. split; [reflexivity|]. split; [reflexivity|].
    split; [reflexivity|].
    split; [simpl; rewrite append_empty_r; reflexivity|].
    split; [reflexivity|].
    intros k. query_lookup.
  - intros this [pk rs rid sb tb].
    unfold getRequiredReviewers, get. rewrite run_single.
    eexists _, _. repeat split.
Qed.

(** ** Every request of every call *)

(** The requests of a call, one goal for each of them. *)
Ltac each_request Hin :=
  lazymatch type of Hin with
  | _ ∈ trace (run ?respond (invoke _ (UpdateReviewStatus ?p)) ?s) =>
      cbn [invoke] in Hin; rewrite run_data, run_updateReviewStatus in Hin;
      destruct (respond s propertiesRequest) as [[?|?] ?]; cbv zeta in Hin;
      [ destruct (respond _ (participantRequest p _)) as [[?|?] ?];
        simpl in Hin; set_unfold in Hin; destruct Hin as [Hin|[Hin|Hin]];
        try contradiction; injection Hin as -> _
      | simpl in Hin; apply list_elem_of_singleton in Hin; injection Hin as -> _ ]
  | _ ∈ trace (run ?respond (invoke _ (CheckRepositoryPermissions ?p)) ?s) =>
      rewrite run_permissions, run_checkRepositoryPermissions in Hin;
      destruct (respond s (readProbe p)) as [[?|?] ?];
      [ destruct (respond _ (writeProbe p)) as [[?|?] ?];
        simpl in Hin; set_unfold in Hin; destruct Hin as [Hin|[Hin|Hin]];
        try contradiction; injection Hin as -> _
      | simpl in Hin; apply list_elem_of_singleton in Hin; injection Hin as -> _ ]
  | _ ∈ trace (run _ (invoke _ (_ ?p)) _) => try destruct p; the_request Hin
  end.

(** X10. Every url that a method hands to axios starts with one of seven
    literals of the source, each a single [/] followed by a letter: whatever
    the parameters hold, the url is a path, which axios does not take for an
    absolute url (neither [//host] nor [scheme://host]) and so resolves
    against the base url. *)
Theorem urls_are_relative {Server : Type}
    (respond : Server -> Request -> Settled Response * Server)
    (this : BitbucketClient) (c : Method) (s : Server)
    (r : Request) (o : Settled Response) :
  (r, o) ∈ trace (run respond (invoke this c) s) ->
  (exists root, root ∈ literalRoots /\ hasPrefix (render (req_url r)) root) /\
  isAbsoluteURL (render (req_url r)) = false.
Proof.
  intros Hin.
  assert (Hroot : existsb (startsWith (render (req_url r))) literalRoots = true /\
                  isAbsoluteURL (render (req_url r)) = false).
  { destruct c as [p|p|p|p|p|p|p|p|p|p|p|p|p|p|p|p|p|p|p|p|p|p];
      each_request Hin; split; reflexivity. }
  destruct Hroot as [Hroot Habs]. split; [|exact Habs].
  apply existsb_exists in Hroot as (root & Hmem & Hstarts).
  exists root. split; [apply list_elem_of_In, Hmem | apply startsWith_spec, Hstarts].
Qed.

Lemma urls_are_relative_witness :
  (exists root,
     root ∈ literalRoots /\ hasPrefix (render (req_url exampleRawRequest)) root) /\
  isAbsoluteURL (render (req_url exampleRawRequest)) = false.
Proof.
  exact (urls_are_relative down exampleClient (GetRawContent exampleRaw) ()
           exampleRawRequest (Rejected networkError) ltac:(constructor)).
Defined.

(** X11. No method passes a header other than [Accept] with a request: in
    particular no request config carries its own [Authorization] or
    [Content-Type], so these can only come from the instance defaults that the
    constructor built. *)
Theorem only_accept_is_set {Server : Type}
    (respond : Server -> Request -> Settled Response * Server)
    (this : BitbucketClient) (c : Method) (s : Server)
    (r : Request) (o : Settled Response) (k : string) :
  (r, o) ∈ trace (run respond (invoke this c) s) ->
  k <> "Accept" ->
  header k r = None.
Proof.
  intros Hin Hk.
  destruct c as [p|p|p|p|p|p|p|p|p|p|p|p|p|p|p|p|p|p|p|p|p|p];
    each_request Hin; try reflexivity;
    unfold header; cbn [req_config cfg_headers mbind option_bind];
    apply lookup_singleton_ne; congruence.
Qed.

Lemma only_accept_is_set_witness :
  header "Authorization" exampleRawRequest = None.
Proof.
  exact (only_accept_is_set down exampleClient (GetRawContent exampleRaw) ()
           exampleRawRequest (Rejected networkError) "Authorization"
           ltac:(constructor) ltac:(discriminate)).
Defined.

(** X12. The fifteen methods whose source holds only [get] calls issue
    nothing but GET requests, and over all methods a request has a body
    exactly when it is a POST or a PUT. *)
Theorem verbs_and_bodies {Server : Type}
    (respond : Server -> Request -> Settled Response * Server)
    (this : BitbucketClient) (c : Method) (s : Server)
    (r : Request) (o : Settled Response) :
  (r, o) ∈ trace (run respond (invoke this c) s) ->
  (readOnly c = true -> req_verb r = GET) /\
  (req_data r = None <-> req_verb r = GET \/ req_verb r = DELETE).
Proof.
  intros Hin.
  destruct c as [p|p|p|p|p|p|p|p|p|p|p|p|p|p|p|p|p|p|p|p|p|p];
    each_request Hin;
    (split;
     [ intros Hro; first [reflexivity | discriminate Hro]
     | split;
       [ intros Hd;
         first [discriminate Hd | left; reflexivity | right; reflexivity]
       | intros [Hv|Hv]; first [reflexivity | discriminate Hv] ] ]).
Qed.

Lemma verbs_and_bodies_witness :
  req_verb exampleRawRequest = GET /\ req_data exampleRawRequest = None.
Proof.
  destruct (verbs_and_bodies down exampleClient (GetRawContent exampleRaw) ()
              exampleRawRequest (Rejected networkError) ltac:(constructor))
    as [Hget Hbody].
  split; [exact (Hget eq_refl) | apply Hbody; left; exact (Hget eq_refl)].
Defined.

(** X13. A method that awaits one call resolves to the [data] of the
    response, whatever its status and headers, and to [undefined] for the two
    deleting methods; a rejection is passed on as it is. *)
Theorem single_call_returns_data {Server : Type}
    (respond : Server -> Request -> Settled Response * Server)
    (this : BitbucketClient) (c : Method) (s : Server) :
  awaitsOnce c = true ->
  exists r o,
    trace (run respond (invoke this c) s) = [(r, o)] /\
    outcome (run respond (invoke this c) s) =
      match o with
      | Resolved x => Resolved (returned c x)
      | Rejected e => Rejected e
      end.
Proof.
  intros Hc. destruct c as [p|p|p|p|p|p|p|p|p|p|p|p|p|p|p|p|p|p|p|p|p|p];
    try discriminate Hc; try destruct p.
  all: lazymatch goal with
       | |- exists r o, trace (run ?rsp ?m ?s0) = _ /\ _ =>
           let m' := eval hnf in m in
           lazymatch m' with
           | Call ?R ?K =>
               change m with (Call R K); cbn [run];
               destruct (rsp s0 R) as [[x|e] s'];
               eexists _, _; split; reflexivity
           end
       end.
Qed.

Lemma single_call_returns_data_witness :
  exists r o,
    trace (run replay (invoke exampleClient (GetRawContent exampleRaw))
             [ok ∅ (JStr "contents")]) = [(r, o)] /\
    outcome (run replay (invoke exampleClient (GetRawContent exampleRaw))
               [ok ∅ (JStr "contents")]) =
      match o with
      | Resolved x => Resolved (returned (GetRawContent exampleRaw) x)
      | Rejected e => Rejected e
      end.
Proof.
  exact (single_call_returns_data replay exampleClient (GetRawContent exampleRaw)
           [ok ∅ (JStr "contents")] eq_refl).
Defined.

(** ** The two-request methods *)

(** X14. [checkRepositoryPermissions] sends its write probe only after the
    read probe resolved: when the read probe is rejected, the read probe is
    the only request of the call.  When both probes resolve, the result is
    [{ read: true, write: true }]. *)
Theorem write_probe_only_after_read {Server : Type}
    (respond : Server -> Request -> Settled Response * Server) (s : Server)
    (params : CheckRepositoryPermissionsParams.t) :
  (forall e s1,
     respond s (readProbe params) = (Rejected e, s1) ->
     requests (run respond (checkRepositoryPermissions params) s) = [readProbe params]) /\
  (forall x s1 y s2,
     respond s (readProbe params) = (Resolved x, s1) ->
     respond s1 (writeProbe params) = (Resolved y, s2) ->
     requests (run respond (checkRepositoryPermissions params) s) =
       [readProbe params; writeProbe params] /\
     outcome (run respond (checkRepositoryPermissions params) s) =
       Resolved (mkPermissions true true)).
Proof.
  split.
  - intros e s1 H. rewrite run_checkRepositoryPermissions, H. reflexivity.
  - intros x s1 y s2 H1 H2. rewrite run_checkRepositoryPermissions, H1, H2.
    split; reflexivity.
Qed.

Lemma write_probe_only_after_read_witness :
  requests (run down (checkRepositoryPermissions exampleRepo) ()) =
    [readProbe exampleRepo] /\
  outcome (run replay (checkRepositoryPermissions exampleRepo) [ok ∅ JNull; ok ∅ JNull]) =
    Resolved (mkPermissions true true).
Proof.
  split.
  - exact (proj1 (write_probe_only_after_read down () exampleRepo) _ _ eq_refl).
  - exact (proj2 (proj2 (write_probe_only_after_read replay [ok ∅ JNull; ok ∅ JNull]
                           exampleRepo) _ _ _ _ eq_refl eq_refl)).
Defined.

(** X15. When the write probe of [checkRepositoryPermissions] is rejected
    with an [errors] array, only its first entry decides: the call ends as it
    would if [errors] held that entry alone, whatever the later entries
    say. *)
Theorem only_first_error_decides {Server Server' : Type}
    (respond : Server -> Request -> Settled Response * Server)
    (respond' : Server' -> Request -> Settled Response * Server')
    (s : Server) (s' : Server') (params : CheckRepositoryPermissionsParams.t)
    (x x' : Response) (s1 s2 : Server) (s1' s2' : Server')
    (code code' : string) (status status' : Z)
    (fields fields' : list (string * JsVal)) (first : JsVal) (rest : list JsVal) :
  respond s (readProbe params) = (Resolved x, s1) ->
  respond s1 (writeProbe params) =
    (Rejected (mkError code (Some (mkErrorResponse status (JObj fields)))), s2) ->
  assoc "errors" fields = Some (JArr (first :: rest)) ->
  respond' s' (readProbe params) = (Resolved x', s1') ->
  respond' s1' (writeProbe params) =
    (Rejected (mkError code' (Some (mkErrorResponse status' (JObj fields')))), s2') ->
  assoc "errors" fields' = Some (JArr [first]) ->
  outcome (run respond (checkRepositoryPermissions params) s) =
  outcome (run respond' (checkRepositoryPermissions params) s').
Proof.
  intros H1 H2 Herrors H1' H2' Herrors'.
  rewrite !run_checkRepositoryPermissions, H1, H2, H1', H2'. cbn [outcome].
  unfold inferWrite. cbn [firstErrorMessage err_response eresp_data mbind option_bind getProp].
  rewrite Herrors, Herrors'. cbn [index0 head]. cbv zeta.
  destruct (jsIncludes _ "name") as [[|]|]; [|reflexivity|reflexivity].
  destruct (jsIncludes _ "required"); reflexivity.
Qed.

Lemma only_first_error_decides_witness :
  outcome (run replay (checkRepositoryPermissions exampleRepo)
             [ok ∅ JNull;
              failure 403 [Some "You are not permitted"; Some "name is required"]]) =
  outcome (run replay (checkRepositoryPermissions exampleRepo)
             [ok ∅ JNull; failure 403 [Some "You are not permitted"]]).
Proof.
  exact (only_first_error_decides replay replay
           [ok ∅ JNull;
            failure 403 [Some "You are not permitted"; Some "name is required"]]
           [ok ∅ JNull; failure 403 [Some "You are not permitted"]]
           exampleRepo _ _ _ _ _ _ _ _ _ _ _ _ _ _
           eq_refl eq_refl eq_refl eq_refl eq_refl eq_refl).
Defined.

(** X16. [updateReviewStatus] keeps nothing between calls: the second of two
    calls in a row looks the user up again and addresses its update to the
    slug of its own lookup. *)
Theorem user_slug_not_cached {Server : Type}
    (respond : Server -> Request -> Settled Response * Server) (s : Server)
    (first second : UpdateReviewStatusParams.t)
    (lookup1 : Response) (s1 : Server) (x1 : Response) (s2 : Server)
    (lookup2 : Response) (s3 : Server) :
  respond s propertiesRequest = (Resolved lookup1, s1) ->
  respond s1 (participantRequest first (resp_headers lookup1 !! "x-ausername")) =
    (Resolved x1, s2) ->
  respond s2 propertiesRequest = (Resolved lookup2, s3) ->
  requests (run respond (_ <- updateReviewStatus first ;; updateReviewStatus second) s) =
  [propertiesRequest;
   participantRequest first (resp_headers lookup1 !! "x-ausername");
   propertiesRequest;
   participantRequest second (resp_headers lookup2 !! "x-ausername")].
Proof.
  intros H1 H2 H3. unfold requests.
  rewrite run_bind, (run_updateReviewStatus respond first s), H1. cbv zeta.
  rewrite H2. cbn [outcome final trace].
  rewrite run_updateReviewStatus, H3. cbv zeta.
  destruct (respond s3 _) as [[x2|e2] s4]; reflexivity.
Qed.

Lemma user_slug_not_cached_witness :
  render ∘ req_url <$>
    requests (run replay
                (_ <- updateReviewStatus exampleReview ;; updateReviewStatus exampleReview)
                [ok {["x-ausername" := "jdoe"]} JNull; ok ∅ JNull;
                 ok {["x-ausername" := "asmith"]} JNull; ok ∅ JNull]) =
  ["/application-properties";
   "/projects/PROJ/repos/my-repo/pull-requests/123/participants/jdoe";
   "/application-properties";
   "/projects/PROJ/repos/my-repo/pull-requests/123/participants/asmith"].
Proof.
  rewrite (user_slug_not_cached replay
             [ok {["x-ausername" := "jdoe"]} JNull; ok ∅ JNull;
              ok {["x-ausername" := "asmith"]} JNull; ok ∅ JNull]
             exampleReview exampleReview _ _ _ _ _ _ eq_refl eq_refl eq_refl).
  vm_compute. reflexivity.
Defined.

(** X17. When the lookup response of [updateReviewStatus] has no
    [x-ausername] header, the update is sent all the same, to
    [.../participants/undefined]. *)
Theorem missing_user_header {Server : Type}
    (respond : Server -> Request -> Settled Response * Server) (s : Server)
    (params : UpdateReviewStatusParams.t) (lookup : Response) (s1 : Server) :
  respond s propertiesRequest = (Resolved lookup, s1) ->
  resp_headers lookup !! "x-ausername" = None ->
  exists update,
    requests (run respond (updateReviewStatus params) s) = [propertiesRequest; update] /\
    req_verb update = PUT /\
    render (req_url update) =
      "/projects/" +:+ UpdateReviewStatusParams.projectKey params
      +:+ "/repos/" +:+ UpdateReviewStatusParams.repositorySlug params
      +:+ "/pull-requests/" +:+ pretty (UpdateReviewStatusParams.pullRequestId params)
      +:+ "/participants/undefined".
Proof.
  intros Hlookup Hnone. unfold requests.
  rewrite run_updateReviewStatus, Hlookup, Hnone. cbv zeta.
  exists (participantRequest params None).
  split; [destruct (respond s1 _) as [[x|e] s2]; reflexivity|].
  split; [reflexivity|].
  destruct params as [pk rs id st]. reflexivity.
Qed.

Lemma missing_user_header_witness :
  exists update,
    requests (run replay (updateReviewStatus exampleReview) [ok ∅ JNull; ok ∅ JNull]) =
      [propertiesRequest; update] /\
    req_verb update = PUT /\
    render (req_url update) =
      "/projects/" +:+ UpdateReviewStatusParams.projectKey exampleReview
      +:+ "/repos/" +:+ UpdateReviewStatusParams.repositorySlug exampleReview
      +:+ "/pull-requests/"
      +:+ pretty (UpdateReviewStatusParams.pullRequestId exampleReview)
      +:+ "/participants/undefined".
Proof.
  exact (missing_user_header replay [ok ∅ JNull; ok ∅ JNull] exampleReview _ _
           eq_refl eq_refl).
Defined.

(** ** The plugin base of an unusual base url *)

Lemma append_assoc (a b c : string) : (a +:+ b) +:+ c = a +:+ (b +:+ c).
Proof.
  induction a as [|x a IH]; [reflexivity|].
  change (String x ((a +:+ b) +:+ c) = String x (a +:+ (b +:+ c))).
  rewrite IH. reflexivity.
Qed.

Lemma includes_length (s x : string) :
  includes s x = true -> (String.length x <= String.length s)%nat.
Proof.
  intros H. apply includes_spec in H as (a & b & ->).
  rewrite !length_append. lia.
Qed.

(** A replacement inside the first part of a concatenation does not see the
    second part. *)
Lemma replace_append (b q pat rep : string) :
  includes b pat = true ->
  replace (b +:+ q) pat rep = replace b pat rep +:+ q.
Proof.
  induction b as [|c b IH]; intros H.
  - destruct pat as [|a pat]; [|discriminate H].
    rewrite (replace_unfold ("" +:+ q)), (replace_unfold "").
    change (rep +:+ q = (rep +:+ "") +:+ q). rewrite append_empty_r. reflexivity.
  - rewrite (replace_unfold (String c b +:+ q)), (replace_unfold (String c b)).
    rewrite stripPrefix_append.
    destruct (stripPrefix pat (String c b)) as [rest|] eqn:Hhead.
    + symmetry. apply append_assoc.
    + change (startsWith (String c b) pat || includes b pat = true) in H.
      unfold startsWith in H. rewrite Hhead in H. simpl in H.
      destruct (stripPrefix (String c b) pat) as [p'|] eqn:Hover.
      * apply stripPrefix_Some, (f_equal String.length) in Hover.
        rewrite length_append in Hover. apply includes_length in H.
        simpl in Hover. lia.
      * change (String c (replace (b +:+ q) pat rep) =
                String c (replace b pat rep +:+ q)).
        rewrite (IH H). reflexivity.
Qed.

(** X18. When the configured base url itself holds [/rest/api/latest], the
    plugin base of the three plugin methods is the base url with its own
    first occurrence replaced by [/rest], still followed by the
    [/rest/api/latest] that the constructor appended. *)
Theorem plugin_base_inside_base_url (config : BitbucketClientConfig) :
  includes (baseUrl config) "/rest/api/latest" = true ->
  pluginBase (newClient config) =
  Some (replace (baseUrl config) "/rest/api/latest" "/rest" +:+ "/rest/api/latest").
Proof.
  intros H. unfold pluginBase, newClient. cbn [defaults baseURL fmap option_fmap option_map].
  rewrite (replace_append _ _ _ _ H). reflexivity.
Qed.

Lemma plugin_base_inside_base_url_witness :
  pluginBase (newClient exampleFullUrlConfig) =
  Some "https://bitbucket.example.com/rest/rest/api/latest".
Proof.
  rewrite (plugin_base_inside_base_url exampleFullUrlConfig eq_refl). reflexivity.
Defined.

(** ** Path parameters *)

(** X19. Path parameters are substituted into the url as they are, without
    escaping: for an id that is a safe integer, [getRepository] with a slug
    that continues with [/pull-requests/<id>], the id in decimal, asks for the
    very url that [getPullRequest] asks for with the plain slug and that
    id. *)
Theorem path_parameters_not_escaped {Server : Type}
    (respond : Server -> Request -> Settled Response * Server) (s : Server)
    (projectKey repositorySlug : string) (pullRequestId : SafeInteger) :
  (fun r => (req_verb r, render (req_url r))) <$>
    requests (run respond
                (getRepository
                   (GetRepositoryParams.mk projectKey
                      (repositorySlug +:+ "/pull-requests/" +:+ pretty pullRequestId))) s) =
  (fun r => (req_verb r, render (req_url r))) <$>
    requests (run respond
                (getPullRequest
                   (GetPullRequestParams.mk projectKey repositorySlug pullRequestId)) s).
Proof.
  unfold requests, getRepository, getPullRequest, get. rewrite !run_single. simpl.
  rewrite !append_empty_r. reflexivity.
Qed.
